(** * Top-10 statistics over a newline-delimited tweet log

    A shallow embedding of the six analysis functions of the repository
    (q1_memory, q2_memory, q3_memory, and q1_time, q2_time, q3_time from
    the rows their DuckDB queries read) and of the parts of Python they
    rest on: the values json.loads produces, exceptions and the
    try/except/continue loop, collections.Counter with its
    insertion-ordered table, and Counter.most_common.

    What is outside the repository is taken as follows.
    - json.loads: a line of the file is given by what json.loads does on
      it: [Ok v] when it returns [v], [Raise e] when it raises [e]
      (JSONDecodeError for text that is no JSON; it also raises ValueError
      for an integer of more digits than the interpreter converts, and
      RecursionError for nesting beyond its depth).  Numbers with a
      fraction or an exponent (Python floats) are left out of [json].
    - datetime.fromisoformat(..).date() and EMOJI_PATTERN.findall are
      arguments ([fromisoformat], [findall]) of the functions using them.
    - Counter.most_common(n) is heapq.nlargest(n, items, key=count), which
      the library documents as sorted(items, key=count, reverse=True)[:n];
      sorted is stable, also under reverse=True. *)

From Stdlib Require Import ZArith Lia Ascii.
From stdpp Require Import base list strings sorting.

Set Warnings "-register-all,-clear-no-such-hyp".

(** ** Python values and exceptions *)

(** The value json.loads returns: None, bool, int, str, list, dict (a dict
    by its items, in insertion order; its keys are distinct). *)
Inductive json : Type :=
| JNull
| JBool (b : bool)
| JInt (n : Z)
| JStr (s : string)
| JArr (items : list json)
| JObj (fields : list (string * json)).

(** The exception classes the three functions can meet. *)
Inductive exn : Type :=
| JSONDecodeError | ValueError | KeyError | TypeError | AttributeError
| IndexError | RecursionError.

#[global] Instance exn_eq_dec : EqDecision exn.
Proof. solve_decision. Defined.

(** [isinstance e cls]: json.JSONDecodeError is a subclass of ValueError;
    the other classes here are unrelated. *)
Definition isinstance (e cls : exn) : bool :=
  match e, cls with
  | JSONDecodeError, ValueError => true
  | _, _ => bool_decide (e = cls)
  end.

(** [except (cls1, cls2, ...)] *)
Definition caught (handlers : list exn) (e : exn) : bool :=
  existsb (isinstance e) handlers.

(** An expression either has a value or raises. *)
Inductive result (A : Type) : Type :=
| Ok (a : A)
| Raise (e : exn).
Arguments Ok {A} a.
Arguments Raise {A} e.

Definition bind {A B} (m : result A) (k : A → result B) : result B :=
  match m with
  | Ok a => k a
  | Raise e => Raise e
  end.

Notation "'let*' x := m 'in' k" := (bind m (λ x, k))
  (at level 10, x name, m at level 100, k at level 200,
   format "'let*'  x  :=  m  'in'  '//' k").

(** A statement block run on a state either completes, or raises after
    having changed the state so far. *)
Inductive outcome (S : Type) : Type :=
| Done (s : S)
| Raised (s : S) (e : exn).
Arguments Done {S} s.
Arguments Raised {S} s e.

(** [for line in f: try: body except handlers: continue].  An exception
    the handlers do not catch leaves the function. *)
Fixpoint for_lines {L S} (handlers : list exn) (body : L → S → outcome S)
    (lines : list L) (s : S) : result S :=
  match lines with
  | [] => Ok s
  | line :: rest =>
      match body line s with
      | Done s' => for_lines handlers body rest s'
      | Raised s' e =>
          if caught handlers e then for_lines handlers body rest s'
          else Raise e
      end
  end.

(** [bool(v)] *)
Definition truthy (v : json) : bool :=
  match v with
  | JNull => false
  | JBool b => b
  | JInt n => negb (n =? 0)%Z
  | JStr s => negb (String.eqb s "")
  | JArr items => match items with [] => false | _ => true end
  | JObj fields => match fields with [] => false | _ => true end
  end.

(** [d[k]] on the items of a dict. *)
Fixpoint dict_get (k : string) (fields : list (string * json)) : option json :=
  match fields with
  | [] => None
  | (k', v) :: rest => if String.eqb k' k then Some v else dict_get k rest
  end.

(** [v.get(k, dflt)]: only a dict has the method. *)
Definition py_get (v : json) (k : string) (dflt : json) : result json :=
  match v with
  | JObj fields => Ok (default dflt (dict_get k fields))
  | _ => Raise AttributeError
  end.

(** Keys of a Counter.  Python's dict identifies True with 1 and False
    with 0 (equal and of equal hash), so a bool key stands as the int it
    equals; lists and dicts are unhashable. *)
Inductive pykey : Type :=
| KNone
| KInt (n : Z)
| KStr (s : string).

#[global] Instance pykey_eq_dec : EqDecision pykey.
Proof. solve_decision. Defined.

Definition hashable (v : json) : option pykey :=
  match v with
  | JNull => Some KNone
  | JBool b => Some (KInt (if b then 1 else 0))
  | JInt n => Some (KInt n)
  | JStr s => Some (KStr s)
  | JArr _ | JObj _ => None
  end.

(** [iter(v)]: a list gives its items, a str its characters, a dict its
    keys; None, bool and int are not iterable. *)
Definition py_iter (v : json) : result (list json) :=
  match v with
  | JArr items => Ok items
  | JStr s => Ok ((λ a, JStr (String a EmptyString)) <$> String.list_ascii_of_string s)
  | JObj fields => Ok ((λ kv, JStr kv.1) <$> fields)
  | JNull | JBool _ | JInt _ => Raise TypeError
  end.

(** [s.replace('Z', '+00:00')] *)
Fixpoint replace_Z (s : string) : string :=
  match s with
  | EmptyString => EmptyString
  | String a rest =>
      if Ascii.eqb a "Z"%char then "+00:00" +:+ replace_Z rest
      else String a (replace_Z rest)
  end.

(** ** collections.Counter *)

(** A Counter by its items in insertion order: [c[k] += 1] on a new key
    appends the item, on a known key changes its count in place. *)
Abbreviation Counter K := (list (K * nat)).

Fixpoint incr {K} `{EqDecision K} (k : K) (c : Counter K) : Counter K :=
  match c with
  | [] => [(k, 1)]
  | (k', n) :: rest =>
      if decide (k' = k) then (k', S n) :: rest else (k', n) :: incr k rest
  end.

(** [c[k]], 0 for a missing key. *)
Fixpoint count_of {K} `{EqDecision K} (k : K) (c : Counter K) : nat :=
  match c with
  | [] => 0
  | (k', n) :: rest => if decide (k' = k) then n else count_of k rest
  end.

(** [c.update(iterable)]: one increment per element, in order. *)
Definition update {K} `{EqDecision K} (elems : list K) (c : Counter K)
    : Counter K :=
  foldl (λ c k, incr k c) c elems.

(** [sum(c.values())] *)
Definition total {K} (c : Counter K) : nat := sum_list (c.*2).

(** [sorted(l, key=.., reverse=True)] for the strict order [lt] of the
    keys: descending, and items that compare equal keep their order. *)
Fixpoint insert_desc {A} (lt : A → A → bool) (x : A) (l : list A) : list A :=
  match l with
  | [] => [x]
  | y :: rest =>
      if lt x y then y :: insert_desc lt x rest else x :: y :: rest
  end.

Definition sorted_desc {A} (lt : A → A → bool) (l : list A) : list A :=
  foldr (insert_desc lt) [] l.

Definition count_lt {K} (x y : K * nat) : bool := x.2 <? y.2.

(** [c.most_common(n)] *)
Definition most_common {K} (n : nat) (c : Counter K) : list (K * nat) :=
  take n (sorted_desc count_lt c).

(** ** q1_memory *)

Record date : Type := Date { year : nat; month : nat; day : nat }.

#[global] Instance date_eq_dec : EqDecision date.
Proof. solve_decision. Defined.

(** defaultdict(Counter), by its items in insertion order. *)
Abbreviation Nested := (list (date * Counter pykey)).

(** [t[d]] as a read: the Counter of [d], an empty one when [d] is new. *)
Fixpoint nested_get (d : date) (t : Nested) : Counter pykey :=
  match t with
  | [] => []
  | (d', c) :: rest => if decide (d' = d) then c else nested_get d rest
  end.

(** [t[d]] for its effect: a new [d] gets an empty Counter. *)
Fixpoint nested_touch (d : date) (t : Nested) : Nested :=
  match t with
  | [] => [(d, [])]
  | (d', c) :: rest =>
      if decide (d' = d) then (d', c) :: rest else (d', c) :: nested_touch d rest
  end.

(** [t[d][u] += 1] *)
Fixpoint nested_incr (d : date) (u : pykey) (t : Nested) : Nested :=
  match t with
  | [] => [(d, incr u [])]
  | (d', c) :: rest =>
      if decide (d' = d) then (d', incr u c) :: rest
      else (d', c) :: nested_incr d u rest
  end.

Record q1_state : Type := Q1 {
  date_counts : Counter date;
  date_user_counts : Nested
}.

(** Lines 78-94: what the body reads off a line before it counts.
    [Ok None] is a [continue]; [Ok (Some (d, username))] goes on to the
    two increments. *)
Definition q1_fields (fromisoformat : string → option date)
    (line : result json) : result (option (date * json)) :=
  match line with
  | Raise e => Raise e
  | Ok tweet =>
      let* date_str := py_get tweet "date" (JStr "") in
      if negb (truthy date_str) then Ok None else
      match date_str with
      | JStr s =>
          match fromisoformat (replace_Z s) with
          | None => Raise ValueError
          | Some date_obj =>
              let* user := py_get tweet "user" (JObj []) in
              let* username := py_get user "username" (JStr "") in
              if negb (truthy username) then Ok None
              else Ok (Some (date_obj, username))
          end
      | _ => Raise AttributeError
      end
  end.

(** The body of the try block, lines 78-98.  An unhashable username
    raises TypeError at the second increment, after the first. *)
Definition q1_body (fromisoformat : string → option date)
    (line : result json) (st : q1_state) : outcome q1_state :=
  match q1_fields fromisoformat line with
  | Raise e => Raised st e
  | Ok None => Done st
  | Ok (Some (date_obj, username)) =>
      let dc := incr date_obj (date_counts st) in
      match hashable username with
      | Some u => Done (Q1 dc (nested_incr date_obj u (date_user_counts st)))
      | None =>
          Raised (Q1 dc (nested_touch date_obj (date_user_counts st)))
            TypeError
      end
  end.

Definition q1_handlers : list exn := [JSONDecodeError; ValueError; KeyError].

(** Lines 68-102. *)
Definition q1_aggregate (fromisoformat : string → option date)
    (lines : list (result json)) : result q1_state :=
  for_lines q1_handlers (q1_body fromisoformat) lines (Q1 [] []).

(** [date_user_counts[date_obj].most_common(1)[0][0]] *)
Definition top_user (t : Nested) (d : date) : result pykey :=
  match most_common 1 (nested_get d t) with
  | [] => Raise IndexError
  | (u, _) :: _ => Ok u
  end.

(** Lines 108-112. *)
Fixpoint q1_resolve (t : Nested) (dates : list date)
    : result (list (date * pykey)) :=
  match dates with
  | [] => Ok []
  | d :: rest =>
      let* u := top_user t d in
      let* result := q1_resolve t rest in
      Ok ((d, u) :: result)
  end.

Definition q1_memory (fromisoformat : string → option date)
    (lines : list (result json)) : result (list (date * pykey)) :=
  let* st := q1_aggregate fromisoformat lines in
  let top_10_dates := (most_common 10 (date_counts st)).*1 in
  q1_resolve (date_user_counts st) top_10_dates.

(** ** q2_memory *)

(** Lines 84-91: the emojis of a line. *)
Definition q2_emojis (findall : string → list string)
    (line : result json) : result (list string) :=
  match line with
  | Raise e => Raise e
  | Ok tweet =>
      let* c := py_get tweet "content" (JStr "") in
      let* content :=
        (if truthy c then Ok c else py_get tweet "renderedContent" (JStr "")) in
      if truthy content then
        match content with
        | JStr s => Ok (findall s)
        | _ => Raise TypeError
        end
      else Ok []
  end.

Definition q2_body (findall : string → list string)
    (line : result json) (c : Counter string) : outcome (Counter string) :=
  match q2_emojis findall line with
  | Raise e => Raised c e
  | Ok emojis => Done (update emojis c)
  end.

Definition q2_handlers : list exn := [JSONDecodeError; KeyError].

Definition q2_aggregate (findall : string → list string)
    (lines : list (result json)) : result (Counter string) :=
  for_lines q2_handlers (q2_body findall) lines [].

Definition q2_memory (findall : string → list string)
    (lines : list (result json)) : result (list (string * nat)) :=
  let* emoji_counter := q2_aggregate findall lines in
  Ok (most_common 10 emoji_counter).

(** ** q3_memory *)

(** Lines 81-87: the loop over the mention objects. *)
Fixpoint q3_mentions (users : list json) (c : Counter pykey)
    : outcome (Counter pykey) :=
  match users with
  | [] => Done c
  | user :: rest =>
      match user with
      | JObj fields =>
          match dict_get "username" fields with
          | Some username =>
              if truthy username then
                match hashable username with
                | Some k => q3_mentions rest (incr k c)
                | None => Raised c TypeError
                end
              else q3_mentions rest c
          | None => q3_mentions rest c
          end
      | _ => q3_mentions rest c
      end
  end.

Definition q3_body (line : result json) (c : Counter pykey)
    : outcome (Counter pykey) :=
  match line with
  | Raise e => Raised c e
  | Ok tweet =>
      match py_get tweet "mentionedUsers" (JArr []) with
      | Raise e => Raised c e
      | Ok mentioned_users =>
          if truthy mentioned_users then
            match py_iter mentioned_users with
            | Raise e => Raised c e
            | Ok users => q3_mentions users c
            end
          else Done c
      end
  end.

Definition q3_handlers : list exn := [JSONDecodeError; KeyError; TypeError].

Definition q3_aggregate (lines : list (result json))
    : result (Counter pykey) :=
  for_lines q3_handlers q3_body lines [].

Definition q3_memory (lines : list (result json))
    : result (list (pykey * nat)) :=
  let* mention_counter := q3_aggregate lines in
  Ok (most_common 10 mention_counter).

(** ** q1_time *)

(** The order of DATE values. *)
Definition date_lt (a b : date) : bool :=
  (year a <? year b)
  || ((year a =? year b)
      && ((month a <? month b) || ((month a =? month b) && (day a <? day b)))).

(** The query of q1_time on the rows of its first subquery, [parsed]
    (what read_json_auto, substr, CAST and json_extract_string make of
    the file is DuckDB's), NULL being [None].  GROUP BY keeps NULL as a
    group, the join condition [p.date = dc.date] drops it.  SQL leaves the
    order among equal counts open, in [ORDER BY total_tweets DESC LIMIT
    10] and in ROW_NUMBER; here groups stand in order of first appearance
    and equal counts keep that order.  The final [ORDER BY date DESC] is
    over distinct dates. *)
Definition q1_time (parsed : list (option date * option string))
    : list (date * option string) :=
  let date_counts := most_common 10 (update parsed.*1 []) in
  let user_counts (d : date) :=
    update (filter (λ p, p.1 = Some d) parsed).*2 [] in
  let rank_1 :=
    omap (λ dc : option date * nat,
            match dc.1 with
            | None => None
            | Some d =>
                match most_common 1 (user_counts d) with
                | (username, _) :: _ => Some (d, username)
                | [] => None
                end
            end) date_counts in
  sorted_desc (λ x y, date_lt x.1 y.1) rank_1.

(** ** q2_time and q3_time *)

(** q2_time on the rows its query reads, a row being the [content] and
    [renderedContent] of a tweet (NULL is [None]): the query keeps the
    rows where one of the two is not NULL and takes the first that is
    not; the loop over the column is lines 108-112. *)
Definition q2_time (findall : string → list string)
    (rows : list (option string * option string)) : list (string * nat) :=
  let result_df :=
    omap (λ row : option string * option string,
            match row with
            | (Some content, _) => Some content
            | (None, Some renderedContent) => Some renderedContent
            | (None, None) => None
            end) rows in
  let emoji_counter :=
    foldl (λ c content,
             if String.eqb content "" then c else update (findall content) c)
          [] result_df in
  most_common 10 emoji_counter.

(** q3_time on the rows its query reads, a row being the usernames of the
    [mentionedUsers] of a tweet (NULL where the array, or the username of
    a mention, is missing).  The order among equal counts, open in SQL, is
    taken as in [q1_time]. *)
Definition q3_time (rows : list (option (list (option string))))
    : list (string * nat) :=
  let mentions := rows ≫= default [] in
  let usernames :=
    omap (λ username : option string,
            match username with
            | Some u => if String.eqb u "" then None else Some u
            | None => None
            end) mentions in
  most_common 10 (update usernames []).

(** ** Observations: the keys a line adds to the tables *)

(** q1_memory counts a line under one (date, author) pair or not at all. *)
Definition q1_obs (fromisoformat : string → option date)
    (line : result json) : list (date * pykey) :=
  match q1_fields fromisoformat line with
  | Ok (Some (date_obj, username)) =>
      match hashable username with
      | Some u => [(date_obj, u)]
      | None => []
      end
  | _ => []
  end.

(** q2_memory counts every match of the pattern. *)
Definition q2_obs (findall : string → list string)
    (line : result json) : list string :=
  match q2_emojis findall line with
  | Ok emojis => emojis
  | Raise _ => []
  end.

(** q3_memory counts the usernames of the mention objects, up to the
    first unhashable one. *)
Fixpoint q3_usernames (users : list json) : list pykey :=
  match users with
  | [] => []
  | user :: rest =>
      match user with
      | JObj fields =>
          match dict_get "username" fields with
          | Some username =>
              if truthy username then
                match hashable username with
                | Some k => k :: q3_usernames rest
                | None => []
                end
              else q3_usernames rest
          | None => q3_usernames rest
          end
      | _ => q3_usernames rest
      end
  end.

Definition q3_obs (line : result json) : list pykey :=
  match line with
  | Raise _ => []
  | Ok tweet =>
      match py_get tweet "mentionedUsers" (JArr []) with
      | Raise _ => []
      | Ok mentioned_users =>
          if truthy mentioned_users then
            match py_iter mentioned_users with
            | Raise _ => []
            | Ok users => q3_usernames users
            end
          else []
      end
  end.

(** The stream of observations of a file. *)
Definition stream {L K} (obs : L → list K) (lines : list L) : list K :=
  lines ≫= obs.

(** The number of lines that give at least one key. *)
Definition records_with_keys {L K} (obs : L → list K) (lines : list L) : nat :=
  length (filter (λ line, 0 <? length (obs line)) lines).

(** The number of keys all lines give together. *)
Definition keys_extracted {L K} (obs : L → list K) (lines : list L) : nat :=
  sum_list ((λ line, length (obs line)) <$> lines).

(** How often [k] is observed. *)
Definition occurrences {K} `{EqDecision K} (k : K) (obs : list K) : nat :=
  length (filter (λ x, x = k) obs).

(** The position of the first [k] in a list. *)
Fixpoint first_seen {K} `{EqDecision K} (k : K) (l : list K) : option nat :=
  match l with
  | [] => None
  | x :: rest => if decide (x = k) then Some 0 else S <$> first_seen k rest
  end.

(** [k1] is first observed before [k2] is. *)
Definition earlier {K} `{EqDecision K} (k1 k2 : K) (obs : list K) : Prop :=
  ∃ i j, first_seen k1 obs = Some i ∧ first_seen k2 obs = Some j ∧ i < j.

(** The position of key [k] in a result list, from 0. *)
Definition rank {K V} `{EqDecision K} (k : K) (r : list (K * V)) : option nat :=
  first_seen k r.*1.

(** The keys of a stream in order of first observation. *)
Fixpoint distinct {K} `{EqDecision K} (obs : list K) : list K :=
  match obs with
  | [] => []
  | k :: rest => k :: filter (λ x, x ≠ k) (distinct rest)
  end.

(** [x] stands before [y] in a list. *)
Fixpoint before {A} (x y : A) (l : list A) : Prop :=
  match l with
  | [] => False
  | a :: rest => (a = x ∧ y ∈ rest) ∨ before x y rest
  end.

(** A list is in descending order of [key]. *)
Definition descending {A} (key : A → nat) (l : list A) : Prop :=
  ∀ x y, before x y l → key y ≤ key x.

(** What q1_memory's two increments make of a stream of pairs. *)
Definition q1_apply (obs : list (date * pykey)) (st : q1_state) : q1_state :=
  foldl (λ st p, Q1 (incr p.1 (date_counts st))
                    (nested_incr p.1 p.2 (date_user_counts st))) st obs.

(** A record of q1_memory with no author: no user object, or a user
    object whose username is missing or empty. *)
Definition no_username (fields : list (string * json)) : bool :=
  match dict_get "user" fields with
  | None => true
  | Some (JObj user) =>
      match dict_get "username" user with
      | None => true
      | Some username => negb (truthy username)
      end
  | Some _ => false
  end.

(** The line is counted by q1_memory under date [d]. *)
Definition q1_counted (fromisoformat : string → option date) (d : date)
    (line : result json) : bool :=
  match q1_fields fromisoformat line with
  | Ok (Some (date_obj, _)) => bool_decide (date_obj = d)
  | _ => false
  end.

(** ** Sample lines *)

(** The line [{"date": d, "user": {"username": u}}]. *)
Definition tweet_by (d u : string) : result json :=
  Ok (JObj [("date", JStr d); ("user", JObj [("username", JStr u)])]).

(** The line [{"mentionedUsers": [{"username": u}, ...]}]. *)
Definition tweet_mentioning (us : list string) : result json :=
  Ok (JObj [("mentionedUsers",
               JArr ((λ u, JObj [("username", JStr u)]) <$> us))]).

(** The line [{"content": s}]. *)
Definition tweet_saying (s : string) : result json :=
  Ok (JObj [("content", JStr s)]).

(** fromisoformat(..).date() on the date strings of the sample lines
    (no other string is given to it below). *)
Definition sample_fromisoformat (s : string) : option date :=
  if String.eqb s "2021-02-01T10:00:00+00:00" then Some (Date 2021 2 1)
  else if String.eqb s "2021-02-02T10:00:00+00:00" then Some (Date 2021 2 2)
  else None.

(** EMOJI_PATTERN.findall on the texts of the sample lines (no other
    text is given to it below). *)
Definition sample_findall (s : string) : list string :=
  if String.eqb s "🙏🙏😊" then ["🙏"; "🙏"; "😊"]
  else if String.eqb s "🙏" then ["🙏"]
  else if String.eqb s "😊🙏" then ["😊"; "🙏"]
  else [].

(** Two tweets on 1 February by [a], one on 2 February by [b]. *)
Definition two_days : list (result json) :=
  [tweet_by "2021-02-01T10:00:00Z" "a";
   tweet_by "2021-02-01T10:00:00+00:00" "a";
   tweet_by "2021-02-02T10:00:00Z" "b"].

(** The same three tweets as rows of [parsed]. *)
Definition two_days_parsed : list (option date * option string) :=
  [(Some (Date 2021 2 1), Some "a");
   (Some (Date 2021 2 1), Some "a");
   (Some (Date 2021 2 2), Some "b")].

(** Two tweets on 1 February with no user, then one by [a]. *)
Definition two_unnamed : list (result json) :=
  [Ok (JObj [("date", JStr "2021-02-01T10:00:00Z")]);
   Ok (JObj [("date", JStr "2021-02-01T10:00:00Z")]);
   tweet_by "2021-02-01T10:00:00Z" "a"].

(** The same three tweets as rows of [parsed]. *)
Definition two_unnamed_parsed : list (option date * option string) :=
  [(Some (Date 2021 2 1), None);
   (Some (Date 2021 2 1), None);
   (Some (Date 2021 2 1), Some "a")].

(** Two tweets on 1 February by a user with the empty username, then one
    by [a]. *)
Definition two_empty_names : list (result json) :=
  [tweet_by "2021-02-01T10:00:00Z" "";
   tweet_by "2021-02-01T10:00:00Z" "";
   tweet_by "2021-02-01T10:00:00Z" "a"].

(** The same three tweets as rows of [parsed]. *)
Definition two_empty_names_parsed : list (option date * option string) :=
  [(Some (Date 2021 2 1), Some "");
   (Some (Date 2021 2 1), Some "");
   (Some (Date 2021 2 1), Some "a")].

(** One tweet on 2 February by [b], then one on 1 February by [a]. *)
Definition two_days_tied : list (result json) :=
  [tweet_by "2021-02-02T10:00:00Z" "b"; tweet_by "2021-02-01T10:00:00Z" "a"].

Definition tied_text : list (result json) := [tweet_saying "😊🙏"].

Definition two_texts : list (result json) :=
  [tweet_saying "🙏🙏😊"; tweet_saying "🙏"].

(** [K] and [A] are mentioned once each; then a tweet mentions [K] once
    and [A] twice. *)
Definition K_then_A : list (result json) :=
  [tweet_mentioning ["K"]; tweet_mentioning ["A"]].

Definition K_and_two_A : result json := tweet_mentioning ["K"; "A"; "A"].

(** A tweet that mentions [a], then a user whose username is the list
    [[1]], then [b]. *)
Definition a_list_b : result json :=
  Ok (JObj [("mentionedUsers",
             JArr [JObj [("username", JStr "a")];
                   JObj [("username", JArr [JInt 1])];
                   JObj [("username", JStr "b")]])]).

(** [k0] is mentioned once, then [k1] to [k10] twice each; then one more
    tweet mentions [k0]. *)
Definition eleven_keys : list (result json) :=
  [tweet_mentioning ["k0"];
   tweet_mentioning ["k1"; "k1"; "k2"; "k2"; "k3"; "k3"; "k4"; "k4";
                     "k5"; "k5"; "k6"; "k6"; "k7"; "k7"; "k8"; "k8";
                     "k9"; "k9"; "k10"; "k10"]].

Definition one_more_k0 : result json := tweet_mentioning ["k0"].

(** Two tweets on 1 February, by [b] and then by [a]. *)
Definition one_day_tied : list (result json) :=
  [tweet_by "2021-02-01T10:00:00Z" "b"; tweet_by "2021-02-01T10:00:00Z" "a"].

(** A line that is no JSON, a tweet with a date that does not parse,
    one with no user, and one counted. *)
Definition mixed_lines : list (result json) :=
  [Raise JSONDecodeError;
   tweet_by "yesterday" "a";
   Ok (JObj [("date", JStr "2021-02-01T10:00:00Z");
               ("content", JStr "🙏"); ("mentionedUsers", JNull)]);
   tweet_by "2021-02-01T10:00:00Z" "a"].

(** ** Tweets with fields of the expected types *)

(** A field that holds a string ([Some (Some s)]), or is missing or null
    ([Some None]); [None] for a value of another type. *)
Definition str_field (k : string) (fields : list (string * json))
    : option (option string) :=
  match dict_get k fields with
  | None | Some JNull => Some None
  | Some (JStr s) => Some (Some s)
  | Some _ => None
  end.

Definition is_str_field (k : string) (fields : list (string * json)) : bool :=
  match str_field k fields with
  | Some _ => true
  | None => false
  end.

(** A tweet whose date, content and renderedContent each hold a string
    or null or are missing, and whose user is missing or an object with
    such a username. *)
Definition well_typed_tweet (fields : list (string * json)) : bool :=
  is_str_field "date" fields
  && is_str_field "content" fields
  && is_str_field "renderedContent" fields
  && match dict_get "user" fields with
     | None => true
     | Some (JObj user) => is_str_field "username" user
     | Some _ => false
     end.

(** A line json.loads rejects with JSONDecodeError, the one exception
    of json.loads that all three functions catch, or such a tweet. *)
Definition well_typed_line (line : result json) : bool :=
  match line with
  | Raise e => bool_decide (e = JSONDecodeError)
  | Ok (JObj fields) => well_typed_tweet fields
  | Ok _ => false
  end.

(** A line json.loads rejects with an exception q3_memory catches, or any
    object. *)
Definition object_line (line : result json) : bool :=
  match line with
  | Raise e => caught q3_handlers e
  | Ok (JObj _) => true
  | Ok _ => false
  end.

(** Some tweet of the file holds a string under [k]. *)
Definition has_text (k : string) (tweets : list (list (string * json)))
    : bool :=
  existsb (λ fields,
             match dict_get k fields with
             | Some (JStr _) => true
             | _ => false
             end) tweets.

(** The row of q2_time's query for a tweet, in a file where content and
    renderedContent are columns: a missing or null field is NULL. *)
Definition q2_row (fields : list (string * json))
    : option (option string * option string) :=
  match str_field "content" fields, str_field "renderedContent" fields with
  | Some content, Some renderedContent => Some (content, renderedContent)
  | _, _ => None
  end.

(** The rows q2_time's query reads from a file of tweets.  read_json_auto
    gives the file the columns it finds in its lines, and the query binds
    only if content and renderedContent are both among them (an empty
    file has neither).  The rows are taken where each of the two holds
    text in some line and nothing but text or null in the others; [None]
    stands for every other file. *)
Definition q2_rows (tweets : list (list (string * json)))
    : option (list (option string * option string)) :=
  if has_text "content" tweets && has_text "renderedContent" tweets
  then mapM q2_row tweets
  else None.

(** The username q3_time's query extracts from a mention. *)
Definition mention_username (user : json) : option (option string) :=
  match user with
  | JObj fields => str_field "username" fields
  | _ => None
  end.

(** The row of q3_time's query for a tweet, in a file where
    mentionedUsers is a column of lists: the usernames of its
    mentionedUsers, NULL for a missing or null array. *)
Definition q3_row (fields : list (string * json))
    : option (option (list (option string))) :=
  match dict_get "mentionedUsers" fields with
  | None | Some JNull => Some None
  | Some (JArr users) => Some <$> mapM mention_username users
  | Some _ => None
  end.

(** Some tweet of the file mentions a user with a string under
    username. *)
Definition has_mention_name (tweets : list (list (string * json))) : bool :=
  existsb (λ fields,
             match dict_get "mentionedUsers" fields with
             | Some (JArr users) =>
                 existsb (λ user,
                            match user with
                            | JObj mention =>
                                match dict_get "username" mention with
                                | Some (JStr _) => true
                                | _ => false
                                end
                            | _ => false
                            end) users
             | _ => false
             end) tweets.

(** The rows q3_time's query reads from a file of tweets.  The query
    binds only if read_json_auto finds mentionedUsers in the file as a
    list (a file where it is missing or null in every line, or an empty
    file, has no such column).  The rows are taken where some mention of
    the file has a string under username; [None] stands for every other
    file. *)
Definition q3_rows (tweets : list (list (string * json)))
    : option (list (option (list (option string)))) :=
  if has_mention_name tweets then mapM q3_row tweets else None.

(** The authors counted under date [d], in order. *)
Definition users_on (d : date) (obs : list (date * pykey)) : list pykey :=
  (filter (λ p, p.1 = d) obs).*2.

(** A mention q3_memory passes over: no object, or an object with no
    username or an empty one. *)
Definition no_mention (user : json) : bool :=
  match user with
  | JObj fields =>
      match dict_get "username" fields with
      | Some username => negb (truthy username)
      | None => true
      end
  | _ => true
  end.

(** A tweet q3_memory reads no mention from: mentionedUsers is missing,
    null or a list of mentions it passes over. *)
Definition without_mentions (fields : list (string * json)) : bool :=
  match dict_get "mentionedUsers" fields with
  | None | Some JNull => true
  | Some (JArr users) => forallb no_mention users
  | Some _ => false
  end.

(** The characters of a string. *)
Definition chars (s : string) : list ascii := String.list_ascii_of_string s.

(** * Lists: order of appearance *)

Section order.
Context {A : Type}.
Implicit Types (x y a : A) (l : list A).

Lemma before_elem_of x y l : before x y l → x ∈ l ∧ y ∈ l.
Proof.
  induction l as [|a l IH]; simpl; [done|].
  rewrite !elem_of_cons. intros [[-> Hy]|Hb]; [by auto|].
  destruct (IH Hb); auto.
Qed.

Lemma before_app x y l1 l2 :
  before x y (l1 ++ l2) ↔
  before x y l1 ∨ (x ∈ l1 ∧ y ∈ l2) ∨ before x y l2.
Proof.
  induction l1 as [|a l1 IH]; simpl.
  - rewrite elem_of_nil. tauto.
  - rewrite IH, elem_of_app, !elem_of_cons. naive_solver.
Qed.

Lemma before_lookup x y l i j :
  l !! i = Some x → l !! j = Some y → i < j → before x y l.
Proof.
  revert i j. induction l as [|a l IH]; intros i j Hi Hj Hlt; [done|].
  destruct j as [|j]; [lia|]. simpl in Hj. destruct i as [|i]; simpl in Hi.
  - left. split; [congruence|]. apply list_elem_of_lookup; eauto.
  - right. apply (IH i j); auto with lia.
Qed.

Lemma before_NoDup_lookup x y l i j :
  NoDup l → before x y l → l !! i = Some x → l !! j = Some y → i < j.
Proof.
  revert i j. induction l as [|a l IH]; intros i j Hnd Hb Hi Hj; [done|].
  apply NoDup_cons in Hnd as [Ha Hnd].
  assert (∀ k z, l !! k = Some z → z ≠ a) as Hne.
  { intros k z Hk ->. apply Ha, list_elem_of_lookup; eauto. }
  destruct Hb as [[-> Hy]|Hb].
  - destruct i as [|i]; [|by destruct (Hne i x Hi)].
    destruct j as [|j]; [|lia]. simpl in Hj.
    destruct Ha. congruence.
  - apply before_elem_of in Hb as Hxy. destruct Hxy as [Hx Hy].
    destruct i as [|i]; [simpl in Hi; destruct Ha; congruence|].
    destruct j as [|j]; [simpl in Hj; destruct Ha; congruence|].
    apply (IH i j) in Hb; auto with lia.
Qed.

Lemma before_irrefl x l : NoDup l → ¬ before x x l.
Proof.
  intros Hnd Hb. apply before_elem_of in Hb as Hx. destruct Hx as [Hx _].
  apply list_elem_of_lookup in Hx as [i Hi].
  pose proof (before_NoDup_lookup x x l i i Hnd Hb Hi Hi). lia.
Qed.

Lemma before_filter (P : A → Prop) `{∀ x, Decision (P x)} x y l :
  before x y (filter P l) ↔ before x y l ∧ P x ∧ P y.
Proof.
  induction l as [|a l IH]; simpl; [tauto|].
  rewrite filter_cons. destruct (decide (P a)) as [Ha|Ha]; simpl.
  - rewrite IH, list_elem_of_filter. split.
    + intros [[-> []]|]; tauto.
    + intros [[[-> ?]|?] [? ?]]; tauto.
  - rewrite IH. split; [tauto|]. intros [[[-> ?]|?] [? ?]]; tauto.
Qed.

Lemma before_fmap {B} (f : A → B) x y l :
  before x y l → before (f x) (f y) (f <$> l).
Proof.
  induction l as [|a l IH]; simpl; [done|].
  intros [[-> Hy]|Hb]; [left|right; auto].
  split; [done|]. by apply list_elem_of_fmap_2.
Qed.

End order.

Section first_seen.
Context {K : Type} `{EqDecision K}.
Implicit Types (k : K) (l : list K).

Lemma first_seen_None k l : first_seen k l = None ↔ k ∉ l.
Proof.
  induction l as [|x l IH]; simpl.
  - split; [intros _; apply not_elem_of_nil|done].
  - rewrite elem_of_cons. destruct (decide (x = k)) as [->|Hne].
    + split; [done|]. intros []. by left.
    + destruct (first_seen k l); simpl.
      * split; [done|]. intros Hn. exfalso. apply Hn. right.
        apply dec_stable. intros Hk. by apply IH in Hk.
      * split; [|done]. intros _ [->|Hk]; [done|]. by apply IH in Hk.
Qed.

Lemma first_seen_lookup k l i : first_seen k l = Some i → l !! i = Some k.
Proof.
  revert i. induction l as [|x l IH]; intros i; simpl; [done|].
  destruct (decide (x = k)) as [->|Hne]; [by intros [= <-]|].
  destruct (first_seen k l) as [i'|]; simpl; [|done].
  intros [= <-]. by apply IH.
Qed.

Lemma first_seen_elem_of k l : k ∈ l → ∃ i, first_seen k l = Some i.
Proof.
  intros Hk. destruct (first_seen k l) as [i|] eqn:E; [eauto|].
  by apply first_seen_None in E.
Qed.

Lemma first_seen_least k l i j :
  first_seen k l = Some i → l !! j = Some k → i ≤ j.
Proof.
  revert i j. induction l as [|x l IH]; intros i j; simpl; [done|].
  destruct (decide (x = k)) as [->|Hne]; [intros [= <-]; lia|].
  destruct (first_seen k l) as [i'|]; simpl; [|done].
  intros [= <-]. destruct j as [|j]; simpl; [congruence|].
  intros Hj. pose proof (IH i' j eq_refl Hj). lia.
Qed.

Lemma first_seen_NoDup k l i :
  NoDup l → l !! i = Some k → first_seen k l = Some i.
Proof.
  intros Hnd Hi.
  destruct (first_seen_elem_of k l) as [j Hj].
  { apply list_elem_of_lookup; eauto. }
  apply first_seen_lookup in Hj as Hj'.
  by rewrite Hj, (NoDup_lookup l i j k Hnd Hi Hj').
Qed.

Lemma fmap_S_Some (o : option nat) i :
  S <$> o = Some i ↔ ∃ i', i = S i' ∧ o = Some i'.
Proof. destruct o; simpl; naive_solver. Qed.

Lemma first_seen_take k l m i :
  first_seen k (take m l) = Some i ↔ first_seen k l = Some i ∧ i < m.
Proof.
  revert m i. induction l as [|x l IH]; intros m i.
  - rewrite take_nil. simpl. naive_solver.
  - destruct m as [|m]; simpl; [naive_solver lia|].
    destruct (decide (x = k)); [naive_solver lia|].
    rewrite !fmap_S_Some. split.
    + intros (i' & -> & Hi'). apply IH in Hi' as [? ?]. eauto with lia.
    + intros [(i' & -> & Hi') ?]. exists i'. split; [done|].
      apply IH. auto with lia.
Qed.

Lemma first_seen_before k1 k2 l i j :
  first_seen k1 l = Some i → first_seen k2 l = Some j → i < j →
  before k1 k2 l.
Proof.
  intros H1 H2. apply before_lookup; by apply first_seen_lookup.
Qed.

End first_seen.

(** * The stable descending sort *)

Section insertion.
Context {A : Type} (lt : A → A → bool).
Implicit Types (x y a : A) (l : list A).

Lemma insert_desc_perm a l : insert_desc lt a l ≡ₚ a :: l.
Proof.
  induction l as [|y l IH]; simpl; [done|].
  destruct (lt a y); [|done]. rewrite IH. apply perm_swap.
Qed.

Lemma sorted_desc_perm l : sorted_desc lt l ≡ₚ l.
Proof.
  induction l as [|a l IH]; simpl; [done|].
  by rewrite insert_desc_perm, IH.
Qed.

Lemma elem_of_insert_desc x a l : x ∈ insert_desc lt a l ↔ x = a ∨ x ∈ l.
Proof. by rewrite insert_desc_perm, elem_of_cons. Qed.

Lemma elem_of_sorted_desc x l : x ∈ sorted_desc lt l ↔ x ∈ l.
Proof. by rewrite sorted_desc_perm. Qed.

Lemma length_sorted_desc l : length (sorted_desc lt l) = length l.
Proof. by rewrite sorted_desc_perm. Qed.

End insertion.

Section by_key.
Context {A : Type} (key : A → nat).
Implicit Types (x y a : A) (l : list A).
Local Abbreviation klt := (λ x y : A, key x <? key y).

Lemma descending_cons a l :
  descending key (a :: l) ↔ (∀ y, y ∈ l → key y ≤ key a) ∧ descending key l.
Proof.
  unfold descending. simpl. split.
  - intros Hd. split; [intros y Hy; apply Hd; auto|].
    intros x y Hb. apply Hd. auto.
  - intros [Ha Hd] x y [[-> Hy]|Hb]; auto.
Qed.

Lemma insert_desc_head a l :
  (∀ y, y ∈ l → key y ≤ key a) → insert_desc klt a l = a :: l.
Proof.
  destruct l as [|y l]; simpl; [done|]. intros Hle.
  destruct (Nat.ltb_spec (key a) (key y)) as [Hlt|]; [|done].
  assert (key y ≤ key a) by (apply Hle, elem_of_cons; auto). lia.
Qed.

Lemma before_insert_desc x y a l :
  descending key l →
  before x y (insert_desc klt a l) ↔
  before x y l ∨ (x = a ∧ y ∈ l ∧ key y ≤ key a)
  ∨ (y = a ∧ x ∈ l ∧ key a < key x).
Proof.
  induction l as [|b l IH]; intros Hd.
  - simpl. rewrite !elem_of_nil. tauto.
  - apply descending_cons in Hd as [Hb Hd]. specialize (IH Hd). simpl.
    destruct (Nat.ltb_spec (key a) (key b)) as [Hlt|Hge]; simpl.
    + rewrite IH, elem_of_insert_desc, !elem_of_cons. split.
      * intros [[-> [->|Hy]]|[Hxy|[(-> & Hy & Hle)|(-> & Hx & Hl)]]];
          auto 10 with lia.
      * intros [[[-> Hy]|Hxy]|[(-> & [->|Hy] & Hle)|(-> & [->|Hx] & Hl)]];
          auto 10 with lia.
    + rewrite !elem_of_cons. split.
      * intros [[-> [->|Hy]]|[[-> Hy]|Hxy]]; auto 10 with lia.
        right. left. split; [done|]. split; [auto|].
        specialize (Hb y Hy). lia.
      * intros [[[-> Hy]|Hxy]|[(-> & Hy & Hle)|(-> & [->|Hx] & Hl)]];
          auto 10 with lia.
        specialize (Hb x Hx). lia.
Qed.

Lemma before_sorted_desc x y l :
  before x y (sorted_desc klt l) ↔
  (x ∈ l ∧ y ∈ l ∧ key y < key x) ∨ (key x = key y ∧ before x y l).
Proof.
  induction l as [|a l IH] in x, y |- *; simpl.
  - rewrite !elem_of_nil. tauto.
  - assert (descending key (sorted_desc klt l)) as Hd.
    { intros x' y' Hb. apply IH in Hb. lia. }
    rewrite (before_insert_desc _ _ _ _ Hd), IH.
    rewrite !elem_of_sorted_desc, !elem_of_cons. split.
    + intros [[(Hx & Hy & Hl)|[He Hb]]|[(-> & Hy & Hle)|(-> & Hx & Hl)]];
        auto 10.
      destruct (decide (key y = key a)); auto 10 with lia.
    + intros [([->|Hx] & [->|Hy] & Hl)|[He [[-> Hy]|Hb]]];
        auto 10 with lia.
Qed.

Lemma sorted_desc_descending l : descending key (sorted_desc klt l).
Proof. intros x y Hb. apply before_sorted_desc in Hb. lia. Qed.

Lemma filter_insert_desc (P : A → Prop) `{∀ x, Decision (P x)} a l :
  descending key l →
  filter P (insert_desc klt a l) =
  if decide (P a) then insert_desc klt a (filter P l) else filter P l.
Proof.
  induction l as [|b l IH]; intros Hd.
  - simpl. rewrite filter_cons, filter_nil. by destruct (decide (P a)).
  - apply descending_cons in Hd as [Hb Hd]. specialize (IH Hd). simpl.
    destruct (Nat.ltb_spec (key a) (key b)) as [Hlt|Hge].
    + rewrite !(filter_cons _ b), IH.
      destruct (decide (P a)), (decide (P b)); simpl; try done.
      destruct (Nat.ltb_spec (key a) (key b)); [done|lia].
    + rewrite (filter_cons _ a). destruct (decide (P a)); [|done].
      rewrite !(filter_cons _ b). destruct (decide (P b)); simpl.
      * destruct (Nat.ltb_spec (key a) (key b)); [lia|done].
      * symmetry. apply insert_desc_head. intros y Hy.
        apply list_elem_of_filter in Hy as [_ Hy]. specialize (Hb y Hy). lia.
Qed.

Lemma filter_sorted_desc (P : A → Prop) `{∀ x, Decision (P x)} l :
  filter P (sorted_desc klt l) = sorted_desc klt (filter P l).
Proof.
  induction l as [|a l IH]; simpl; [done|].
  rewrite filter_insert_desc by apply sorted_desc_descending.
  rewrite filter_cons, IH. by destruct (decide (P a)).
Qed.

Lemma sorted_desc_lookup_le l i j x y :
  sorted_desc klt l !! i = Some x → sorted_desc klt l !! j = Some y →
  i < j → key y ≤ key x.
Proof.
  intros Hi Hj Hlt. apply (sorted_desc_descending l).
  by apply (before_lookup _ _ _ i j).
Qed.

End by_key.

(** * Counter *)

Section counter.
Context {K : Type} `{EqDecision K}.
Implicit Types (k : K) (n : nat) (c : Counter K) (obs : list K).

Lemma incr_keys k c :
  (incr k c).*1 = if decide (k ∈ c.*1) then c.*1 else c.*1 ++ [k].
Proof.
  induction c as [|[k' n] c IH].
  - by rewrite decide_False by apply not_elem_of_nil.
  - cbn [incr fmap list_fmap fst].
    destruct (decide (k' = k)) as [->|Hne].
    + by rewrite decide_True by (apply elem_of_cons; auto).
    + cbn [fmap list_fmap fst]. fold (fmap (M:=list) (@fst K nat)).
      rewrite IH. destruct (decide (k ∈ c.*1)) as [Hin|Hin].
      * by rewrite decide_True by (apply elem_of_cons; auto).
      * rewrite decide_False; [done|].
        rewrite elem_of_cons. naive_solver.
Qed.

Lemma count_of_incr k k' c :
  count_of k' (incr k c) = count_of k' c + (if decide (k = k') then 1 else 0).
Proof.
  induction c as [|[k0 n] c IH]; simpl.
  - repeat case_decide; simplify_eq; lia.
  - repeat (case_decide; simplify_eq; simpl); lia.
Qed.

Lemma total_incr k c : total (incr k c) = S (total c).
Proof.
  unfold total. induction c as [|[k0 n] c IH]; [done|].
  cbn [incr]. case_decide; rewrite !fmap_cons; cbn [sum_list snd]; [done|].
  rewrite IH. lia.
Qed.

Lemma incr_positive k c :
  Forall (λ e, 1 ≤ e.2) c → Forall (λ e, 1 ≤ e.2) (incr k c).
Proof.
  induction 1 as [|[k0 n] c Hn Hc IH]; simpl.
  - by repeat constructor.
  - case_decide; constructor; simpl in *; auto with lia.
Qed.

Lemma filter_incr_ne k c :
  filter (λ e, e.1 ≠ k) (incr k c) = filter (λ e, e.1 ≠ k) c.
Proof.
  induction c as [|[k0 n] c IH]; simpl.
  - by rewrite filter_cons_False by (simpl; auto).
  - case_decide as Hk; subst.
    + by rewrite !filter_cons_False by (simpl; auto).
    + by rewrite !filter_cons_True, IH by done.
Qed.

Lemma incr_NoDup k c : NoDup c.*1 → NoDup (incr k c).*1.
Proof.
  intros Hnd. rewrite incr_keys. case_decide; [done|].
  apply NoDup_app. split_and!; [done| |apply NoDup_singleton].
  intros x Hx ->%list_elem_of_singleton. done.
Qed.

Lemma count_of_notin k c : k ∉ c.*1 → count_of k c = 0.
Proof.
  induction c as [|[k0 n] c IH]; simpl; [done|].
  rewrite elem_of_cons. intros Hk. case_decide; naive_solver.
Qed.

Lemma count_of_elem_of k n c : NoDup c.*1 → (k, n) ∈ c → count_of k c = n.
Proof.
  induction c as [|[k0 n0] c IH]; simpl; [by rewrite elem_of_nil|].
  rewrite NoDup_cons, elem_of_cons. intros [Hk0 Hnd] [[= -> ->]|Hin].
  - by rewrite decide_True.
  - rewrite decide_False; [auto|]. intros ->. apply Hk0.
    by apply (list_elem_of_fmap_2 fst) in Hin.
Qed.

Lemma elem_of_count_of k c : k ∈ c.*1 → (k, count_of k c) ∈ c.
Proof.
  induction c as [|[k0 n0] c IH]; simpl; [by rewrite elem_of_nil|].
  rewrite !elem_of_cons. intros [->|Hin].
  - rewrite decide_True by done. auto.
  - case_decide; subst; auto.
Qed.

(** ** update: the table of a stream *)

Lemma update_cons k obs c : update (k :: obs) c = update obs (incr k c).
Proof. done. Qed.

Lemma update_app obs1 obs2 c :
  update (obs1 ++ obs2) c = update obs2 (update obs1 c).
Proof. apply foldl_app. Qed.

Lemma update_snoc k obs c : update (obs ++ [k]) c = incr k (update obs c).
Proof. by rewrite update_app. Qed.

Lemma update_keys obs c :
  (update obs c).*1 = c.*1 ++ filter (λ k, k ∉ c.*1) (distinct obs).
Proof.
  revert c. induction obs as [|k obs IH]; intros c.
  - simpl. by rewrite filter_nil, app_nil_r.
  - rewrite update_cons, IH, incr_keys. simpl.
    destruct (decide (k ∈ c.*1)) as [Hin|Hin].
    + rewrite filter_cons_False by auto. rewrite list_filter_filter.
      f_equal. apply list_filter_iff. intros x. naive_solver.
    + rewrite filter_cons_True by auto. rewrite list_filter_filter.
      rewrite <-(assoc_L (++)). simpl. do 2 f_equal.
      apply list_filter_iff. intros x.
      rewrite elem_of_app, list_elem_of_singleton. naive_solver.
Qed.

Lemma tally_keys obs : (update obs []).*1 = distinct obs.
Proof.
  rewrite update_keys. simpl.
  induction (distinct obs) as [|x l IH]; [done|].
  rewrite filter_cons_True by apply not_elem_of_nil. by rewrite IH.
Qed.

Lemma count_of_update k obs c :
  count_of k (update obs c) = count_of k c + occurrences k obs.
Proof.
  revert c. unfold occurrences.
  induction obs as [|x obs IH]; intros c; [simpl; lia|].
  rewrite update_cons, IH, count_of_incr, filter_cons.
  repeat case_decide; simplify_eq; simpl; lia.
Qed.

Lemma total_update obs c : total (update obs c) = total c + length obs.
Proof.
  revert c. induction obs as [|x obs IH]; intros c; [simpl; lia|].
  rewrite update_cons, IH, total_incr. simpl. lia.
Qed.

Lemma update_NoDup obs c : NoDup c.*1 → NoDup (update obs c).*1.
Proof.
  revert c. induction obs as [|x obs IH]; intros c Hc; [done|].
  rewrite update_cons. by apply IH, incr_NoDup.
Qed.

Lemma update_positive obs c :
  Forall (λ e, 1 ≤ e.2) c → Forall (λ e, 1 ≤ e.2) (update obs c).
Proof.
  revert c. induction obs as [|x obs IH]; intros c Hc; [done|].
  rewrite update_cons. by apply IH, incr_positive.
Qed.

Lemma elem_of_distinct k obs : k ∈ distinct obs ↔ k ∈ obs.
Proof.
  induction obs as [|x obs IH]; simpl; [done|].
  rewrite !elem_of_cons, list_elem_of_filter, IH.
  destruct (decide (k = x)); naive_solver.
Qed.

Lemma distinct_NoDup obs : NoDup (distinct obs).
Proof.
  induction obs as [|x obs IH]; simpl; [constructor|].
  apply NoDup_cons. split.
  - rewrite list_elem_of_filter. naive_solver.
  - by apply NoDup_filter.
Qed.

Lemma length_distinct obs : length (distinct obs) = length (remove_dups obs).
Proof.
  apply Permutation_length, NoDup_Permutation.
  - apply distinct_NoDup.
  - apply NoDup_remove_dups.
  - intros k. by rewrite elem_of_distinct, elem_of_remove_dups.
Qed.

Lemma before_distinct k1 k2 obs :
  before k1 k2 (distinct obs) → earlier k1 k2 obs.
Proof.
  unfold earlier. induction obs as [|x obs IH]; simpl; [done|].
  intros [[-> Hk2]|Hb].
  - apply list_elem_of_filter in Hk2 as [Hne Hk2].
    rewrite elem_of_distinct in Hk2.
    apply first_seen_elem_of in Hk2 as [j Hj].
    exists 0, (S j). rewrite decide_True, decide_False, Hj by done.
    simpl. auto with lia.
  - apply before_filter in Hb as (Hb & Hne1 & Hne2).
    destruct (IH Hb) as (i & j & Hi & Hj & Hlt).
    exists (S i), (S j). rewrite !decide_False, Hi, Hj by done.
    simpl. auto with lia.
Qed.

(** The entries of the table of a stream. *)
Lemma elem_of_tally k n obs :
  (k, n) ∈ update obs [] ↔ k ∈ obs ∧ n = occurrences k obs.
Proof.
  assert (NoDup (update obs []).*1) as Hnd by apply update_NoDup, NoDup_nil_2.
  split.
  - intros Hin. split.
    + apply elem_of_distinct. rewrite <-tally_keys.
      by apply (list_elem_of_fmap_2 fst) in Hin.
    + apply count_of_elem_of in Hin; [|done].
      by rewrite count_of_update in Hin.
  - intros [Hin ->]. rewrite <-elem_of_distinct, <-tally_keys in Hin. apply elem_of_count_of in Hin.
    by rewrite count_of_update in Hin.
Qed.

Lemma before_tally k1 n1 k2 n2 obs :
  before (k1, n1) (k2, n2) (update obs []) → earlier k1 k2 obs.
Proof.
  intros Hb. apply (before_fmap fst) in Hb. rewrite tally_keys in Hb.
  by apply before_distinct.
Qed.

End counter.

(** * most_common *)

Section most_common.
Context {K : Type} `{EqDecision K}.
Implicit Types (k : K) (n : nat) (c : Counter K) (obs : list K).

Lemma length_most_common m c : length (most_common m c) = m `min` length c.
Proof. unfold most_common. by rewrite length_take, length_sorted_desc. Qed.

Lemma elem_of_most_common m c e : e ∈ most_common m c → e ∈ c.
Proof.
  unfold most_common. intros (i & Hi & _)%elem_of_take.
  apply (elem_of_sorted_desc count_lt). apply list_elem_of_lookup; eauto.
Qed.

Lemma most_common_lookup m c i e :
  most_common m c !! i = Some e ↔
  sorted_desc count_lt c !! i = Some e ∧ i < m.
Proof. apply lookup_take_Some. Qed.

(** The list is in descending order of count. *)
Lemma most_common_descending m c i j x y :
  most_common m c !! i = Some x → most_common m c !! j = Some y →
  i < j → y.2 ≤ x.2.
Proof.
  intros [Hi _]%most_common_lookup [Hj _]%most_common_lookup.
  by apply (sorted_desc_lookup_le snd c i j).
Qed.

(** Its head has the greatest count of the table. *)
Lemma most_common_head m c x r :
  most_common (S m) c = x :: r → x ∈ c ∧ ∀ e, e ∈ c → e.2 ≤ x.2.
Proof.
  unfold most_common. intros Hr.
  destruct (sorted_desc count_lt c) as [|x' l] eqn:E; [done|].
  simpl in Hr. injection Hr as -> _.
  split; [apply (elem_of_sorted_desc count_lt); rewrite E; left|].
  intros e He. apply (elem_of_sorted_desc count_lt) in He. rewrite E in He.
  pose proof (sorted_desc_descending snd c) as Hd. unfold count_lt in E.
  rewrite E in Hd. apply descending_cons in Hd as [Hle _].
  apply elem_of_cons in He as [->|He]; auto.
Qed.

Lemma most_common_nil m c : most_common (S m) c = [] → c = [].
Proof.
  intros Hr. apply (f_equal length) in Hr.
  rewrite length_most_common in Hr. destruct c; [done|simpl in Hr; lia].
Qed.

Lemma earlier_asym k1 k2 obs : earlier k1 k2 obs → ¬ earlier k2 k1 obs.
Proof.
  intros (i & j & Hi & Hj & Hlt) (j' & i' & Hj' & Hi' & Hlt').
  simplify_eq. lia.
Qed.

Lemma earlier_app_l k1 k2 obs obs' :
  earlier k1 k2 obs → earlier k1 k2 (obs ++ obs').
Proof.
  assert (∀ k l l' i, first_seen k l = Some i →
            first_seen k (l ++ l') = Some i) as Happ.
  { intros k l l'. induction l as [|x l IH]; intros i; simpl; [done|].
    case_decide; [done|]. intros (i' & -> & Hi')%fmap_S_Some.
    by rewrite (IH i'). }
  intros (i & j & Hi & Hj & Hlt). exists i, j. auto.
Qed.

(** Among equal counts, the key first observed earlier stands first. *)
Lemma most_common_tie_order m obs i j k1 k2 :
  (most_common m (update obs [])).*1 !! i = Some k1 →
  (most_common m (update obs [])).*1 !! j = Some k2 →
  occurrences k1 obs = occurrences k2 obs →
  earlier k1 k2 obs →
  i < j.
Proof.
  intros Hi Hj Hocc Hearly.
  apply list_lookup_fmap_Some in Hi as ([k1' n1] & -> & Hi).
  apply list_lookup_fmap_Some in Hj as ([k2' n2] & -> & Hj). simpl in *.
  apply most_common_lookup in Hi as [Hi _].
  apply most_common_lookup in Hj as [Hj _].
  assert (∀ i k n, sorted_desc count_lt (update obs []) !! i = Some (k, n) →
            n = occurrences k obs) as Hcount.
  { intros i0 k n Hl. eapply elem_of_tally, (elem_of_sorted_desc count_lt).
    apply list_elem_of_lookup; eauto. }
  apply Hcount in Hi as Hn1. apply Hcount in Hj as Hn2.
  destruct (decide (i < j)) as [|Hge]; [done|]. exfalso.
  destruct (decide (i = j)) as [->|Hne].
  - simplify_eq. destruct Hearly as (a & b & ? & ? & ?). simplify_eq. lia.
  - assert (j < i) as Hlt by lia.
    pose proof (before_lookup _ _ _ j i Hj Hi Hlt) as Hb.
    apply (before_sorted_desc snd) in Hb as [(_ & _ & Hl)|[_ Hb]].
    + simpl in Hl. lia.
    + apply before_tally in Hb. by apply earlier_asym in Hb.
Qed.

End most_common.

(** * One more observation of a key *)

Section observe.
Context {K : Type} `{EqDecision K}.
Implicit Types (k t : K) (n : nat) (c l : Counter K) (obs : list K).

Lemma filter_key_id k l : k ∉ l.*1 → filter (λ e, e.1 ≠ k) l = l.
Proof.
  induction l as [|b l IH]; [done|]. rewrite fmap_cons, not_elem_of_cons.
  intros [Hb Hl]. rewrite filter_cons_True by (simpl; congruence).
  by rewrite IH.
Qed.

(** Taking the entry of [k] out of a table moves every other entry up by
    at most one place, and by one exactly when [k] stood before it. *)
Lemma lookup_filter_key_1 k l q x :
  NoDup l.*1 → l !! q = Some x → x.1 ≠ k →
  ∃ p, filter (λ e, e.1 ≠ k) l !! p = Some x ∧
       (q = p ∨ (q = S p ∧ ∃ a e, l !! a = Some e ∧ e.1 = k ∧ a < q)).
Proof.
  revert q. induction l as [|b l IH]; intros q Hnd Hq Hx; [done|].
  rewrite fmap_cons in Hnd. apply NoDup_cons in Hnd as [Hb Hnd].
  destruct (decide (b.1 = k)) as [Hk|Hk].
  - rewrite filter_cons_False by auto.
    rewrite filter_key_id by congruence.
    destruct q as [|q]; simpl in Hq; [congruence|].
    exists q. split; [done|]. right. split; [done|].
    exists 0, b. simpl. auto with lia.
  - rewrite filter_cons_True by auto.
    destruct q as [|q]; simpl in Hq.
    + exists 0. simpl. auto.
    + destruct (IH q Hnd Hq Hx) as (p & Hp & [->|(-> & a & e & Ha & He & Hlt)]).
      * exists (S p). auto.
      * exists (S p). split; [done|]. right. split; [done|].
        exists (S a), e. simpl. auto with lia.
Qed.

Lemma lookup_filter_key_2 k l p x :
  NoDup l.*1 → filter (λ e, e.1 ≠ k) l !! p = Some x →
  ∃ q, l !! q = Some x ∧
       (q = p ∨ (q = S p ∧ ∃ a e, l !! a = Some e ∧ e.1 = k ∧ a < q)).
Proof.
  revert p. induction l as [|b l IH]; intros p Hnd Hp; [done|].
  rewrite fmap_cons in Hnd. apply NoDup_cons in Hnd as [Hb Hnd].
  destruct (decide (b.1 = k)) as [Hk|Hk].
  - rewrite filter_cons_False in Hp by auto.
    rewrite filter_key_id in Hp by congruence.
    exists (S p). split; [done|]. right. split; [done|].
    exists 0, b. simpl. auto with lia.
  - rewrite filter_cons_True in Hp by auto.
    destruct p as [|p]; simpl in Hp.
    + exists 0. auto.
    + destruct (IH p Hnd Hp) as (q & Hq & [->|(-> & a & e & Ha & He & Hlt)]).
      * exists (S p). auto.
      * exists (S (S p)). split; [done|]. right. split; [done|].
        exists (S a), e. simpl. auto with lia.
Qed.

Lemma sorted_keys_NoDup c : NoDup c.*1 → NoDup (sorted_desc count_lt c).*1.
Proof. by rewrite sorted_desc_perm. Qed.

Lemma sorted_filter_key k c c' :
  filter (λ e, e.1 ≠ k) c' = filter (λ e, e.1 ≠ k) c →
  filter (λ e, e.1 ≠ k) (sorted_desc count_lt c') =
  filter (λ e, e.1 ≠ k) (sorted_desc count_lt c).
Proof.
  intros Hc. unfold count_lt. by rewrite !(filter_sorted_desc snd), Hc.
Qed.

Lemma key_lookup_unique l i j e1 e2 :
  NoDup l.*1 → l !! i = Some e1 → l !! j = Some e2 → e1.1 = e2.1 → i = j.
Proof.
  intros Hnd Hi Hj He. apply (NoDup_lookup l.*1 i j e1.1 Hnd).
  - by apply list_lookup_fmap_Some_2.
  - rewrite He. by apply list_lookup_fmap_Some_2.
Qed.

Lemma rank_most_common k m c i :
  rank k (most_common m c) = Some i ↔
  first_seen k (sorted_desc count_lt c).*1 = Some i ∧ i < m.
Proof.
  unfold rank, most_common. rewrite fmap_take. apply first_seen_take.
Qed.

Lemma first_seen_entry k l i :
  first_seen k l.*1 = Some i → ∃ n, l !! i = Some (k, n).
Proof.
  intros ([k' n] & -> & Hi)%first_seen_lookup%list_lookup_fmap_Some. eauto.
Qed.

(** [c'] is [c] after more observations of [k] and of no other key. *)
Section bump.
Context (k : K) (c c' : Counter K).
Hypothesis Hnd : NoDup c.*1.
Hypothesis Hnd' : NoDup c'.*1.
Hypothesis Hothers : filter (λ e, e.1 ≠ k) c' = filter (λ e, e.1 ≠ k) c.
Hypothesis Hk : k ∈ c'.*1.
Hypothesis Hmore : count_of k c < count_of k c'.

(** The position of [k] never gets worse. *)
Lemma bump_rank m i :
  rank k (most_common m c) = Some i →
  ∃ i', rank k (most_common m c') = Some i' ∧ i' ≤ i.
Proof.
  intros [Hi Hm]%rank_most_common.
  pose proof (sorted_keys_NoDup c Hnd) as HndL.
  pose proof (sorted_keys_NoDup c' Hnd') as HndL'.
  set (L := sorted_desc count_lt c) in *.
  set (L' := sorted_desc count_lt c') in *.
  apply first_seen_entry in Hi as [n Hi].
  destruct (first_seen_elem_of k L'.*1) as [i' Hi'].
  { unfold L'. by rewrite sorted_desc_perm. }
  exists i'. rewrite rank_most_common. fold L'.
  apply first_seen_entry in Hi' as Hl'. destruct Hl' as [n' Hl'].
  assert (n < n') as Hnn'.
  { assert ((k, n) ∈ c) as Hc.
    { apply (elem_of_sorted_desc count_lt), list_elem_of_lookup; eauto. }
    assert ((k, n') ∈ c') as Hc'.
    { apply (elem_of_sorted_desc count_lt), list_elem_of_lookup; eauto. }
    apply count_of_elem_of in Hc; [|done].
    apply count_of_elem_of in Hc'; [|done]. lia. }
  destruct (decide (i' ≤ i)) as [|Hgt]; [split_and!; auto with lia|].
  exfalso.
  destruct (lookup_lt_is_Some_2 L' i) as [x Hx].
  { apply lookup_lt_Some in Hl'. lia. }
  assert (x.1 ≠ k) as Hxk.
  { intros Hxk.
    pose proof (key_lookup_unique L' i i' x (k, n') HndL' Hx Hl' Hxk). lia. }
  destruct (lookup_filter_key_1 k L' i x HndL' Hx Hxk)
    as (p & Hp & [<-|(-> & a & e & Ha & He & Hlt)]).
  - unfold L' in Hp. rewrite (sorted_filter_key k c c' Hothers) in Hp.
    fold L in Hp.
    destruct (lookup_filter_key_2 k L i x HndL Hp)
      as (q & Hq & [->|(-> & _)]).
    + simplify_eq.
    + pose proof (sorted_desc_lookup_le snd c i (S i) _ _ Hi Hq) as Hle1.
      pose proof (sorted_desc_lookup_le snd c' i i' _ _ Hx Hl') as Hle2.
      simpl in *. lia.
  - pose proof (key_lookup_unique L' a i' e (k, n') HndL' Ha Hl' He). lia.
Qed.

(** Another key leaves the list only from the last place, and only for a
    count that is not above the new count of [k]. *)
Lemma bump_displaces t m :
  t ∈ (most_common (S m) c).*1 →
  t ∉ (most_common (S m) c').*1 →
  rank t (most_common (S m) c) = Some m ∧
  ∃ n n', (t, n) ∈ c' ∧ (k, n') ∈ c' ∧
          (n < n' ∨ (n = n' ∧ before (k, n') (t, n) c')).
Proof.
  intros Hin Hout.
  pose proof (sorted_keys_NoDup c Hnd) as HndL.
  pose proof (sorted_keys_NoDup c' Hnd') as HndL'.
  apply list_elem_of_fmap in Hin as ([t' n] & -> & Hin). simpl in *.
  apply elem_of_take in Hin as (q & Hq & Hqm).
  assert (rank t' (most_common (S m) c) = Some q) as Hrank.
  { apply rank_most_common. split; [|done]. apply first_seen_NoDup; [done|].
    by apply (list_lookup_fmap_Some_2 fst) in Hq. }
  assert (t' ≠ k) as Htk.
  { intros ->. destruct (bump_rank (S m) q Hrank) as (i' & Hi' & _).
    apply Hout. unfold rank in Hi'. apply first_seen_lookup in Hi'.
    apply list_elem_of_lookup; eauto. }
  set (L := sorted_desc count_lt c) in *.
  set (L' := sorted_desc count_lt c') in *.
  destruct (lookup_filter_key_1 k L q (t', n) HndL Hq Htk) as (p & Hp & Hpq).
  unfold L in Hp. rewrite <-(sorted_filter_key k c c' Hothers) in Hp.
  fold L' in Hp.
  destruct (lookup_filter_key_2 k L' p (t', n) HndL' Hp) as (q' & Hq' & Hpq').
  assert (S m ≤ q') as Hq'm.
  { destruct (decide (S m ≤ q')) as [|Hlt]; [done|]. destruct Hout.
    apply (list_elem_of_fmap_2' fst _ (t', n)); [|done].
    apply elem_of_take. exists q'. split; [done|lia]. }
  destruct Hpq' as [->|(-> & a & [k' n'] & Ha & He & Hlt)].
  { exfalso. destruct Hpq as [->|[-> _]]; lia. }
  simpl in He. subst k'.
  assert (q = m) as -> by (destruct Hpq as [->|[-> _]]; lia).
  split; [done|]. exists n, n'.
  assert ((t', n) ∈ c') as Ht.
  { apply (elem_of_sorted_desc count_lt), list_elem_of_lookup; eauto. }
  assert ((k, n') ∈ c') as Hkn.
  { apply (elem_of_sorted_desc count_lt), list_elem_of_lookup; eauto. }
  split_and!; [done..|].
  pose proof (before_lookup _ _ L' a (S p) Ha Hq' Hlt) as Hb.
  apply (before_sorted_desc snd) in Hb as [(_ & _ & Hl)|[Heq Hb]];
    simpl in *; auto.
Qed.

End bump.

Lemma filter_update_key k n c :
  filter (λ e, e.1 ≠ k) (update (replicate n k) c) = filter (λ e, e.1 ≠ k) c.
Proof.
  revert c. induction n as [|n IH]; intros c; [done|].
  simpl. by rewrite IH, filter_incr_ne.
Qed.

Lemma occurrences_replicate k n : occurrences k (replicate n k) = n.
Proof.
  unfold occurrences. induction n as [|n IH]; [done|].
  simpl. rewrite filter_cons_True by done. simpl. by rewrite IH.
Qed.

(** The two facts for the table of a stream that goes on with [S n]
    observations of [k]. *)
Lemma tally_rank k n m obs i :
  rank k (most_common m (update obs [])) = Some i →
  ∃ i', rank k (most_common m (update (obs ++ replicate (S n) k) []))
        = Some i' ∧ i' ≤ i.
Proof.
  rewrite update_app. apply bump_rank.
  - apply update_NoDup, NoDup_nil_2.
  - apply update_NoDup, update_NoDup, NoDup_nil_2.
  - apply filter_update_key.
  - rewrite <-update_app, tally_keys, elem_of_distinct.
    apply elem_of_app. right. by left.
  - rewrite (count_of_update k (replicate (S n) k)), occurrences_replicate.
    lia.
Qed.

Lemma tally_displaces k n t m obs :
  t ∈ (most_common (S m) (update obs [])).*1 →
  t ∉ (most_common (S m) (update (obs ++ replicate (S n) k) [])).*1 →
  rank t (most_common (S m) (update obs [])) = Some m ∧
  (occurrences t (obs ++ replicate (S n) k)
   < occurrences k (obs ++ replicate (S n) k)
   ∨ (occurrences t (obs ++ replicate (S n) k)
      = occurrences k (obs ++ replicate (S n) k)
      ∧ earlier k t (obs ++ replicate (S n) k))).
Proof.
  intros Hin Hout. rewrite update_app in Hout.
  destruct (bump_displaces k (update obs [])
              (update (replicate (S n) k) (update obs []))) with (t := t) (m := m)
    as (Hrank & n0 & n' & Ht & Hkn & Hcmp); [..|done|done|].
  - apply update_NoDup, NoDup_nil_2.
  - apply update_NoDup, update_NoDup, NoDup_nil_2.
  - apply filter_update_key.
  - rewrite <-update_app, tally_keys, elem_of_distinct.
    apply elem_of_app. right. by left.
  - rewrite (count_of_update k (replicate (S n) k)), occurrences_replicate.
    lia.
  - split; [done|]. rewrite <-update_app in Ht, Hkn, Hcmp.
    apply elem_of_tally in Ht as [_ ->]. apply elem_of_tally in Hkn as [_ ->].
    destruct Hcmp as [?|[? Hb]]; [by left|right].
    split; [done|]. by apply before_tally in Hb.
Qed.

End observe.

(** * The loops over the lines *)

Lemma for_lines_app {L S} h (body : L → S → outcome S) l1 l2 s :
  for_lines h body (l1 ++ l2) s =
  let* s' := for_lines h body l1 s in for_lines h body l2 s'.
Proof.
  revert s. induction l1 as [|line l1 IH]; intros s; simpl; [done|].
  destruct (body line s) as [s1|s1 e]; [done|]. by destruct (caught h e).
Qed.

(** A loop whose body adds the observations of its line to the state, or
    raises something the handlers do not catch, ends with the state the
    whole stream of observations makes. *)
Lemma for_lines_stream {L S K} h (body : L → S → outcome S)
    (obs : L → list K) (app : list K → S → S) :
  (∀ s, app [] s = s) →
  (∀ o1 o2 s, app (o1 ++ o2) s = app o2 (app o1 s)) →
  (∀ line s, match body line s with
             | Done s' => s' = app (obs line) s
             | Raised s' e => caught h e = true → s' = app (obs line) s
             end) →
  ∀ lines s s',
    for_lines h body lines s = Ok s' → s' = app (stream obs lines) s.
Proof.
  intros Hnil Happ Hbody. unfold stream.
  induction lines as [|line lines IH]; intros s s'; simpl.
  - intros [= <-]. by rewrite Hnil.
  - rewrite Happ. specialize (Hbody line s).
    destruct (body line s) as [s1|s1 e].
    + subst. apply IH.
    + destruct (caught h e); [|done]. rewrite <-Hbody by done. apply IH.
Qed.

Lemma stream_snoc {L K} (obs : L → list K) lines line :
  stream obs (lines ++ [line]) = stream obs lines ++ obs line.
Proof. unfold stream. by rewrite bind_app, bind_singleton. Qed.

Lemma length_stream {L K} (obs : L → list K) lines :
  length (stream obs lines) = keys_extracted obs lines.
Proof.
  unfold stream, keys_extracted.
  induction lines as [|line lines IH]; [done|].
  rewrite bind_cons, length_app, IH. done.
Qed.

(** ** q3_memory *)

Lemma q3_mentions_obs users c :
  q3_mentions users c = Done (update (q3_usernames users) c)
  ∨ q3_mentions users c = Raised (update (q3_usernames users) c) TypeError.
Proof.
  revert c. induction users as [|user users IH]; intros c; simpl; [auto|].
  destruct user as [| | | | |fields]; try apply IH.
  destruct (dict_get "username" fields) as [username|]; [|apply IH].
  destruct (truthy username); [|apply IH].
  destruct (hashable username) as [k|]; [apply IH|auto].
Qed.

Lemma q3_body_obs line c :
  q3_body line c = Done (update (q3_obs line) c)
  ∨ q3_body line c = Raised (update (q3_obs line) c) TypeError
  ∨ (q3_obs line = [] ∧ ∃ e, q3_body line c = Raised c e).
Proof.
  unfold q3_body, q3_obs. destruct line as [tweet|]; [|eauto 6].
  destruct (py_get tweet "mentionedUsers" (JArr [])) as [m|e]; [|eauto 6].
  destruct (truthy m); [|auto].
  destruct (py_iter m) as [users|e]; [|eauto 6].
  destruct (q3_mentions_obs users c); auto.
Qed.

Lemma q3_aggregate_stream lines c :
  q3_aggregate lines = Ok c → c = update (stream q3_obs lines) [].
Proof.
  apply (for_lines_stream _ _ q3_obs update); [done|apply update_app|].
  intros line s.
  destruct (q3_body_obs line s) as [->|[->|(Hnil & e & ->)]]; [done..|].
  by rewrite Hnil.
Qed.

(** ** q2_memory *)

Lemma q2_body_obs findall line c :
  q2_body findall line c = Done (update (q2_obs findall line) c)
  ∨ (q2_obs findall line = [] ∧ ∃ e, q2_body findall line c = Raised c e).
Proof.
  unfold q2_body, q2_obs. destruct (q2_emojis findall line); eauto.
Qed.

Lemma q2_aggregate_stream findall lines c :
  q2_aggregate findall lines = Ok c →
  c = update (stream (q2_obs findall) lines) [].
Proof.
  apply (for_lines_stream _ _ (q2_obs findall) update);
    [done|apply update_app|].
  intros line s.
  destruct (q2_body_obs findall line s) as [->|(Hnil & e & ->)]; [done|].
  by rewrite Hnil.
Qed.

(** ** q1_memory *)

Lemma q1_apply_app o1 o2 st : q1_apply (o1 ++ o2) st = q1_apply o2 (q1_apply o1 st).
Proof. apply foldl_app. Qed.

Lemma q1_body_obs f line st :
  q1_body f line st = Done (q1_apply (q1_obs f line) st)
  ∨ (∃ st', q1_body f line st = Raised st' TypeError)
  ∨ (q1_obs f line = [] ∧ ∃ e, q1_body f line st = Raised st e).
Proof.
  unfold q1_body, q1_obs. destruct (q1_fields f line) as [[[d username]|]|e].
  - destruct (hashable username); eauto.
  - auto.
  - eauto 6.
Qed.

Lemma q1_body_counted f line st :
  q1_obs f line ≠ [] →
  q1_body f line st = Done (q1_apply (q1_obs f line) st).
Proof.
  unfold q1_body, q1_obs.
  destruct (q1_fields f line) as [[[d username]|]|e]; try done.
  by destruct (hashable username).
Qed.

Lemma q1_aggregate_stream f lines st :
  q1_aggregate f lines = Ok st →
  st = q1_apply (stream (q1_obs f) lines) (Q1 [] []).
Proof.
  apply (for_lines_stream _ _ (q1_obs f) q1_apply); [done|apply q1_apply_app|].
  intros line s.
  destruct (q1_body_obs f line s) as [->|[[st' ->]|(Hnil & e & ->)]];
    [done..|].
  by rewrite Hnil.
Qed.

Lemma nested_get_incr d d' u t :
  nested_get d (nested_incr d' u t) =
  if decide (d' = d) then incr u (nested_get d t) else nested_get d t.
Proof.
  induction t as [|[d0 c] t IH]; simpl.
  - by destruct (decide (d' = d)).
  - destruct (decide (d0 = d')) as [->|Hne]; simpl.
    + by destruct (decide (d' = d)).
    + destruct (decide (d0 = d)) as [->|Hne'].
      * by rewrite decide_False by done.
      * done.
Qed.

Lemma q1_apply_date_counts obs st :
  date_counts (q1_apply obs st) = update obs.*1 (date_counts st).
Proof.
  revert st. induction obs as [|p obs IH]; intros st; [done|].
  simpl. by rewrite IH.
Qed.

Lemma q1_apply_nested d obs st :
  nested_get d (date_user_counts (q1_apply obs st)) =
  update (filter (λ p, p.1 = d) obs).*2 (nested_get d (date_user_counts st)).
Proof.
  revert st. induction obs as [|p obs IH]; intros st; [done|].
  simpl. rewrite IH. simpl. rewrite nested_get_incr, filter_cons.
  by destruct (decide (p.1 = d)).
Qed.

Lemma occurrences_fst {A B} `{EqDecision A} (a : A) (l : list (A * B)) :
  occurrences a l.*1 = length (filter (λ p, p.1 = a) l).
Proof.
  unfold occurrences. induction l as [|p l IH]; [done|].
  rewrite fmap_cons, !filter_cons.
  destruct (decide (p.1 = a)); simpl; by rewrite IH.
Qed.

Lemma occurrences_pair {A B} `{EqDecision A, EqDecision B}
    (a : A) (b : B) (l : list (A * B)) :
  occurrences b (filter (λ p, p.1 = a) l).*2 = occurrences (a, b) l.
Proof.
  unfold occurrences. induction l as [|[a' b'] l IH]; [done|].
  rewrite (filter_cons (λ p, p.1 = a)), (filter_cons (λ x, x = (a, b))).
  destruct (decide ((a', b').1 = a)) as [Ha|Ha]; simpl in Ha.
  - subst a'. rewrite fmap_cons, (filter_cons (λ x, x = b)). simpl.
    destruct (decide (b' = b)) as [->|Hne].
    + rewrite decide_True by done. simpl. f_equal. apply IH.
    + rewrite decide_False by congruence. apply IH.
  - rewrite decide_False by congruence. apply IH.
Qed.

Lemma occurrences_notin {A} `{EqDecision A} (a : A) (l : list A) :
  a ∉ l → occurrences a l = 0.
Proof.
  unfold occurrences. induction l as [|x l IH]; [done|].
  rewrite not_elem_of_cons. intros [Hne Hl].
  rewrite filter_cons_False by congruence. auto.
Qed.

Lemma q1_resolve_fst t dates r :
  q1_resolve t dates = Ok r → r.*1 = dates.
Proof.
  revert r. induction dates as [|d dates IH]; intros r; simpl.
  - by intros [= <-].
  - destruct (top_user t d) as [u|]; simpl; [|done].
    destruct (q1_resolve t dates) as [r'|]; simpl; [|done].
    intros [= <-]. rewrite fmap_cons. simpl. f_equal. by apply IH.
Qed.

Lemma q1_resolve_top_user t dates r d u :
  q1_resolve t dates = Ok r → (d, u) ∈ r → top_user t d = Ok u.
Proof.
  revert r. induction dates as [|d' dates IH]; intros r; simpl.
  - intros [= <-]. by rewrite elem_of_nil.
  - destruct (top_user t d') as [u'|] eqn:E; simpl; [|done].
    destruct (q1_resolve t dates) as [r'|]; simpl; [|done].
    intros [= <-]. rewrite elem_of_cons. intros [[= -> ->]|Hin]; eauto.
Qed.

Lemma q1_resolve_ok t dates :
  (∀ d, d ∈ dates → ∃ u, top_user t d = Ok u) →
  ∃ r, q1_resolve t dates = Ok r.
Proof.
  induction dates as [|d dates IH]; intros Hall; simpl; [eauto|].
  destruct (Hall d) as [u ->]; [left|]. simpl.
  destruct IH as [r ->]; [|simpl; eauto].
  intros d' Hd'. apply Hall. by right.
Qed.

(** * Properties of the statistics *)

(** C1.  q1_time ends its query with [ORDER BY date DESC]: on two tweets
    of 1 February and one of 2 February it returns 2 February, the day
    with fewer tweets, first.  q1_memory returns the same days in
    descending order of their tweet counts. *)
Theorem q1_time_orders_by_date :
  q1_time two_days_parsed
    = [(Date 2021 2 2, Some "b"); (Date 2021 2 1, Some "a")]
  ∧ occurrences (Some (Date 2021 2 2)) two_days_parsed.*1 = 1
  ∧ occurrences (Some (Date 2021 2 1)) two_days_parsed.*1 = 2
  ∧ q1_memory sample_fromisoformat two_days
    = Ok [(Date 2021 2 1, KStr "a"); (Date 2021 2 2, KStr "b")].
Proof. by vm_compute. Qed.

(** X1.  The other five functions do return their lists in descending
    order of count. *)
Lemma other_results_descending f g lines rows2 rows3 :
  (∀ i j e1 e2, q2_time g rows2 !! i = Some e1 →
     q2_time g rows2 !! j = Some e2 → i < j → e2.2 ≤ e1.2)
  ∧ (∀ i j e1 e2, q3_time rows3 !! i = Some e1 →
       q3_time rows3 !! j = Some e2 → i < j → e2.2 ≤ e1.2)
  ∧ (∀ r i j p1 p2, q1_memory f lines = Ok r →
     r !! i = Some p1 → r !! j = Some p2 → i < j →
     occurrences p2.1 (stream (q1_obs f) lines).*1
     ≤ occurrences p1.1 (stream (q1_obs f) lines).*1)
  ∧ (∀ r i j e1 e2, q2_memory g lines = Ok r →
       r !! i = Some e1 → r !! j = Some e2 → i < j → e2.2 ≤ e1.2)
  ∧ (∀ r i j e1 e2, q3_memory lines = Ok r →
       r !! i = Some e1 → r !! j = Some e2 → i < j → e2.2 ≤ e1.2).
Proof.
  split_and!.
  - intros i j e1 e2. apply most_common_descending.
  - intros i j e1 e2. apply most_common_descending.
  - intros r i j p1 p2 Hr Hi Hj Hlt. unfold q1_memory in Hr.
    destruct (q1_aggregate f lines) as [st|] eqn:E; [simpl in Hr|done].
    apply q1_resolve_fst in Hr. apply q1_aggregate_stream in E. subst st.
    rewrite q1_apply_date_counts in Hr. simpl in Hr.
    apply (list_lookup_fmap_Some_2 fst) in Hi, Hj. rewrite Hr in Hi, Hj.
    apply list_lookup_fmap_Some in Hi as ([d1 n1] & -> & Hi).
    apply list_lookup_fmap_Some in Hj as ([d2 n2] & -> & Hj).
    pose proof (most_common_descending _ _ _ _ _ _ Hi Hj Hlt) as Hle.
    apply list_elem_of_lookup_2, elem_of_most_common, elem_of_tally in Hi, Hj.
    destruct Hi as [_ ->], Hj as [_ ->]. done.
  - intros r i j e1 e2 Hr. unfold q2_memory in Hr.
    destruct (q2_aggregate g lines) as [c|]; [simpl in Hr|done].
    injection Hr as <-. apply most_common_descending.
  - intros r i j e1 e2 Hr. unfold q3_memory in Hr.
    destruct (q3_aggregate lines) as [c|]; [simpl in Hr|done].
    injection Hr as <-. apply most_common_descending.
Qed.

(** C2 does not hold as stated: one tweet that mentions two users adds
    two to the counts of q3_memory and is one record. *)
Lemma one_record_two_mentions :
  q3_aggregate [tweet_mentioning ["a"; "b"]]
    = Ok [(KStr "a", 1); (KStr "b", 1)]
  ∧ total [(KStr "a", 1); (KStr "b", 1)] = 2
  ∧ records_with_keys q3_obs [tweet_mentioning ["a"; "b"]] = 1
  ∧ 1 ≤ length [tweet_mentioning ["a"; "b"]]
  ∧ total [(KStr "a", 1); (KStr "b", 1)]
    ≠ records_with_keys q3_obs [tweet_mentioning ["a"; "b"]].
Proof. by vm_compute. Qed.

Lemma records_with_keys_le_1 {L K} (obs : L → list K) lines :
  (∀ line, length (obs line) ≤ 1) →
  keys_extracted obs lines = records_with_keys obs lines.
Proof.
  intros Hle. unfold keys_extracted, records_with_keys.
  induction lines as [|line lines IH]; [done|].
  rewrite fmap_cons, filter_cons. simpl. rewrite IH.
  specialize (Hle line). destruct (obs line) as [|k [|k' o]]; simpl in *.
  - done.
  - done.
  - lia.
Qed.

Lemma length_q1_obs f line : length (q1_obs f line) ≤ 1.
Proof.
  unfold q1_obs. destruct (q1_fields f line) as [[[d username]|]|]; auto.
  destruct (hashable username); auto.
Qed.

(** C2, amended.  The counts of a table sum to the number of keys counted
    from the lines: for q1_memory a counted line gives one key, so this
    is the number of lines with a date and an author; for q2_memory a
    line gives one key per emoji match, and for q3_memory one per mention
    with a non-empty username, up to the first mention of the line whose
    username cannot be a key (the TypeError it raises ends the line). *)
Theorem total_is_keys_extracted f g lines :
  (∀ st, q1_aggregate f lines = Ok st →
     total (date_counts st) = records_with_keys (q1_obs f) lines)
  ∧ (∀ c, q2_aggregate g lines = Ok c →
       total c = keys_extracted (q2_obs g) lines)
  ∧ (∀ c, q3_aggregate lines = Ok c →
       total c = keys_extracted q3_obs lines).
Proof.
  split_and!.
  - intros st ->%q1_aggregate_stream.
    rewrite q1_apply_date_counts, total_update, length_fmap, length_stream.
    apply records_with_keys_le_1, length_q1_obs.
  - intros c ->%q2_aggregate_stream. by rewrite total_update, length_stream.
  - intros c ->%q3_aggregate_stream. by rewrite total_update, length_stream.
Qed.

Lemma total_is_keys_extracted_witness :
  total [(Date 2021 2 1, 2); (Date 2021 2 2, 1)]
    = records_with_keys (q1_obs sample_fromisoformat) two_days
  ∧ total [("🙏", 3); ("😊", 1)]
    = keys_extracted (q2_obs sample_findall) two_texts
  ∧ total [(KStr "K", 2); (KStr "A", 3)]
    = keys_extracted q3_obs (K_then_A ++ [K_and_two_A])
  ∧ total [(KStr "a", 1)] = keys_extracted q3_obs [a_list_b].
Proof.
  destruct (total_is_keys_extracted sample_fromisoformat sample_findall
              [a_list_b]) as (_ & _ & H4).
  destruct (total_is_keys_extracted sample_fromisoformat sample_findall
              two_days) as (H1 & _ & _).
  destruct (total_is_keys_extracted sample_fromisoformat sample_findall
              two_texts) as (_ & H2 & _).
  destruct (total_is_keys_extracted sample_fromisoformat sample_findall
              (K_then_A ++ [K_and_two_A])) as (_ & _ & H3).
  split_and!.
  - apply (H1 (Q1 [(Date 2021 2 1, 2); (Date 2021 2 2, 1)]
                  [(Date 2021 2 1, [(KStr "a", 2)]);
                   (Date 2021 2 2, [(KStr "b", 1)])])).
    reflexivity.
  - apply H2. reflexivity.
  - apply H3. reflexivity.
  - apply H4. reflexivity.
Defined.

(** C3.  In the lists q1_memory, q2_memory and q3_memory return, of two
    keys with the same count the one first observed earlier in the file
    stands ahead of the other. *)
Theorem ties_keep_first_seen_order f g lines :
  (∀ r i j p1 p2, q1_memory f lines = Ok r →
     r !! i = Some p1 → r !! j = Some p2 →
     occurrences p1.1 (stream (q1_obs f) lines).*1
     = occurrences p2.1 (stream (q1_obs f) lines).*1 →
     earlier p1.1 p2.1 (stream (q1_obs f) lines).*1 →
     i < j)
  ∧ (∀ r i j e1 e2, q2_memory g lines = Ok r →
       r !! i = Some e1 → r !! j = Some e2 → e1.2 = e2.2 →
       earlier e1.1 e2.1 (stream (q2_obs g) lines) →
       i < j)
  ∧ (∀ r i j e1 e2, q3_memory lines = Ok r →
       r !! i = Some e1 → r !! j = Some e2 → e1.2 = e2.2 →
       earlier e1.1 e2.1 (stream q3_obs lines) →
       i < j).
Proof.
  assert (∀ {K} `{EqDecision K} (obs : list K) i j (e1 e2 : K * nat),
            most_common 10 (update obs []) !! i = Some e1 →
            most_common 10 (update obs []) !! j = Some e2 →
            e1.2 = e2.2 → earlier e1.1 e2.1 obs → i < j) as Hties.
  { intros K ? obs i j [k1 n1] [k2 n2] Hi Hj Hn Hearly. simpl in *.
    apply (most_common_tie_order 10 obs i j k1 k2); [..|done].
    - by apply (list_lookup_fmap_Some_2 fst) in Hi.
    - by apply (list_lookup_fmap_Some_2 fst) in Hj.
    - apply list_elem_of_lookup_2, elem_of_most_common, elem_of_tally in Hi, Hj.
      destruct Hi as [_ Hi], Hj as [_ Hj]. congruence. }
  split_and!.
  - intros r i j p1 p2 Hr Hi Hj Hocc Hearly. unfold q1_memory in Hr.
    destruct (q1_aggregate f lines) as [st|] eqn:E; [simpl in Hr|done].
    apply q1_resolve_fst in Hr. apply q1_aggregate_stream in E. subst st.
    rewrite q1_apply_date_counts in Hr. simpl in Hr.
    apply (list_lookup_fmap_Some_2 fst) in Hi, Hj. rewrite Hr in Hi, Hj.
    by apply (most_common_tie_order 10 (stream (q1_obs f) lines).*1
                i j p1.1 p2.1).
  - intros r i j e1 e2 Hr. unfold q2_memory in Hr.
    destruct (q2_aggregate g lines) as [c|] eqn:E; [simpl in Hr|done].
    injection Hr as <-. apply q2_aggregate_stream in E as ->. apply Hties.
  - intros r i j e1 e2 Hr. unfold q3_memory in Hr.
    destruct (q3_aggregate lines) as [c|] eqn:E; [simpl in Hr|done].
    injection Hr as <-. apply q3_aggregate_stream in E as ->. apply Hties.
Qed.

Lemma ties_keep_first_seen_order_witness :
  (q1_memory sample_fromisoformat two_days_tied
     = Ok [(Date 2021 2 2, KStr "b"); (Date 2021 2 1, KStr "a")]
   ∧ earlier (Date 2021 2 2) (Date 2021 2 1)
       (stream (q1_obs sample_fromisoformat) two_days_tied).*1
   ∧ 0 < 1)
  ∧ (q2_memory sample_findall tied_text = Ok [("😊", 1); ("🙏", 1)]
     ∧ earlier "😊" "🙏" (stream (q2_obs sample_findall) tied_text)
     ∧ 0 < 1)
  ∧ (q3_memory K_then_A = Ok [(KStr "K", 1); (KStr "A", 1)]
     ∧ earlier (KStr "K") (KStr "A") (stream q3_obs K_then_A)
     ∧ 0 < 1).
Proof.
  assert (∀ {K} `{EqDecision K} (k1 k2 : K) obs,
            first_seen k1 obs = Some 0 → first_seen k2 obs = Some 1 →
            earlier k1 k2 obs) as Hearly.
  { intros K ? k1 k2 obs H1 H2. exists 0, 1. auto. }
  split_and!; try reflexivity; try (by apply Hearly).
  - destruct (ties_keep_first_seen_order sample_fromisoformat sample_findall
                two_days_tied) as (H1 & _ & _).
    apply (H1 [(Date 2021 2 2, KStr "b"); (Date 2021 2 1, KStr "a")]
              0 1 (Date 2021 2 2, KStr "b") (Date 2021 2 1, KStr "a"));
      try reflexivity.
    by apply Hearly.
  - destruct (ties_keep_first_seen_order sample_fromisoformat sample_findall
                tied_text) as (_ & H2 & _).
    apply (H2 [("😊", 1); ("🙏", 1)] 0 1 ("😊", 1) ("🙏", 1));
      try reflexivity.
    by apply Hearly.
  - destruct (ties_keep_first_seen_order sample_fromisoformat sample_findall
                K_then_A) as (_ & _ & H3).
    apply (H3 [(KStr "K", 1); (KStr "A", 1)] 0 1 (KStr "K", 1) (KStr "A", 1));
      try reflexivity.
    by apply Hearly.
Defined.

Lemma top_of_tally {K} `{EqDecision K} (obs : list K) u n rest :
  most_common 1 (update obs []) = (u, n) :: rest →
  1 ≤ occurrences u obs ∧ ∀ u', occurrences u' obs ≤ occurrences u obs.
Proof.
  intros [Hu Hmax]%most_common_head.
  pose proof (update_positive obs [] (Forall_nil_2 _)) as Hpos.
  rewrite Forall_forall in Hpos. apply Hpos in Hu as Hn. simpl in Hn.
  apply elem_of_tally in Hu as [_ ->]. split; [done|]. intros u'.
  destruct (decide (u' ∈ obs)) as [Hin|Hin].
  - apply (Hmax (u', occurrences u' obs)), elem_of_tally. done.
  - rewrite (occurrences_notin u') by done. lia.
Qed.

(** C4.  q1_time takes a missing or empty username for an author: of
    three tweets of one date, two with no username (or the empty one) and
    one by [a], it returns the date with NULL (or the empty string), no
    handle; q1_memory, which passes over tweets without a username,
    returns the date with [a]. *)
Theorem q1_time_returns_missing_author :
  q1_time two_unnamed_parsed = [(Date 2021 2 1, None)]
  ∧ q1_time two_empty_names_parsed = [(Date 2021 2 1, Some "")]
  ∧ q1_memory sample_fromisoformat two_unnamed
    = Ok [(Date 2021 2 1, KStr "a")]
  ∧ q1_memory sample_fromisoformat two_empty_names
    = Ok [(Date 2021 2 1, KStr "a")].
Proof. by vm_compute. Qed.

(** X17.  The author q1_memory returns with a date is one with the most
    tweets counted under that date; the username q1_time returns with a
    date, NULL taken for a username like any other, is one with the most
    rows of that date. *)
Theorem top_user_has_most_tweets f lines parsed :
  (∀ r d u, q1_memory f lines = Ok r → (d, u) ∈ r →
     1 ≤ occurrences (d, u) (stream (q1_obs f) lines)
     ∧ ∀ u', occurrences (d, u') (stream (q1_obs f) lines)
             ≤ occurrences (d, u) (stream (q1_obs f) lines))
  ∧ (∀ d u, (d, u) ∈ q1_time parsed →
       1 ≤ occurrences (Some d, u) parsed
       ∧ ∀ u', occurrences (Some d, u') parsed
               ≤ occurrences (Some d, u) parsed).
Proof.
  split.
  - intros r d u Hr Hin. unfold q1_memory in Hr.
    destruct (q1_aggregate f lines) as [st|] eqn:E; [simpl in Hr|done].
    apply (q1_resolve_top_user _ _ _ d u) in Hr; [|done].
    apply q1_aggregate_stream in E. subst st. unfold top_user in Hr.
    rewrite q1_apply_nested in Hr. simpl in Hr.
    destruct (most_common 1 _) as [|[u0 n] rest] eqn:Htop; [done|].
    injection Hr as ->. apply top_of_tally in Htop.
    by setoid_rewrite occurrences_pair in Htop.
  - intros d u Hin. unfold q1_time in Hin.
    apply elem_of_sorted_desc, list_elem_of_omap in Hin
      as ([[d0|] n0] & _ & Hrow); simpl in Hrow; [|done].
    destruct (most_common 1 _) as [|[u0 n] rest] eqn:Htop; [done|].
    injection Hrow as -> ->. apply top_of_tally in Htop.
    by setoid_rewrite occurrences_pair in Htop.
Qed.

Lemma top_user_has_most_tweets_witness :
  1 ≤ occurrences (Date 2021 2 1, KStr "a")
        (stream (q1_obs sample_fromisoformat) two_days)
  ∧ occurrences (Date 2021 2 1, KStr "b")
      (stream (q1_obs sample_fromisoformat) two_days)
    ≤ occurrences (Date 2021 2 1, KStr "a")
        (stream (q1_obs sample_fromisoformat) two_days)
  ∧ 1 ≤ occurrences (Some (Date 2021 2 1), Some "a") two_days_parsed.
Proof.
  destruct (top_user_has_most_tweets sample_fromisoformat two_days
              two_days_parsed) as [H1 H2].
  destruct (H1 [(Date 2021 2 1, KStr "a"); (Date 2021 2 2, KStr "b")]
              (Date 2021 2 1) (KStr "a")) as [Hone Hmax];
    [reflexivity|left|].
  destruct (H2 (Date 2021 2 1) (Some "a")) as [Hone' _].
  { apply list_elem_of_In. vm_compute. auto. }
  split_and!; [done|apply Hmax|done].
Defined.

Lemma q1_apply_invariant obs d n :
  (d, n) ∈ date_counts (q1_apply obs (Q1 [] [])) →
  1 ≤ n
  ∧ total (nested_get d (date_user_counts (q1_apply obs (Q1 [] [])))) = n.
Proof.
  rewrite q1_apply_date_counts, q1_apply_nested. simpl. intros Hin.
  pose proof (update_positive obs.*1 [] (Forall_nil_2 _)) as Hpos.
  rewrite Forall_forall in Hpos. apply Hpos in Hin as Hn.
  apply elem_of_tally in Hin as [_ ->]. split; [done|].
  rewrite total_update, length_fmap, occurrences_fst. done.
Qed.

(** C5.  After any number of lines of the pass of q1_memory, and so at
    its end, the counts of the authors of a date sum to the count of the
    date. *)
Theorem nested_counts_sum_to_date_count f lines n st d c :
  q1_aggregate f (take n lines) = Ok st →
  (d, c) ∈ date_counts st →
  total (nested_get d (date_user_counts st)) = c.
Proof.
  intros ->%q1_aggregate_stream Hin.
  by apply q1_apply_invariant in Hin as [_ Hsum].
Qed.

Lemma nested_counts_sum_to_date_count_witness :
  total (nested_get (Date 2021 2 1)
           [(Date 2021 2 1, [(KStr "a", 2)])]) = 2.
Proof.
  apply (nested_counts_sum_to_date_count sample_fromisoformat two_days 2
           (Q1 [(Date 2021 2 1, 2)] [(Date 2021 2 1, [(KStr "a", 2)])])
           (Date 2021 2 1) 2).
  - reflexivity.
  - left.
Defined.

Lemma q1_top_user_ok f lines st d :
  q1_aggregate f lines = Ok st →
  d ∈ (most_common 10 (date_counts st)).*1 →
  nested_get d (date_user_counts st) ≠ []
  ∧ ∃ u, top_user (date_user_counts st) d = Ok u.
Proof.
  intros Hagg ([d' n] & -> & Hin%elem_of_most_common)%list_elem_of_fmap.
  simpl. apply q1_aggregate_stream in Hagg as ->.
  apply q1_apply_invariant in Hin as [Hn Hsum].
  assert (nested_get d' (date_user_counts
            (q1_apply (stream (q1_obs f) lines) (Q1 [] []))) ≠ []) as Hne.
  { intros Hnil. rewrite Hnil in Hsum. unfold total in Hsum.
    simpl in Hsum. lia. }
  split; [done|]. unfold top_user.
  destruct (most_common 1 _) as [|[u k] rest] eqn:E; [|eauto].
  by apply most_common_nil in E.
Qed.

Lemma q1_memory_returns f lines st :
  q1_aggregate f lines = Ok st →
  ∃ r, q1_memory f lines = Ok r
       ∧ r.*1 = (most_common 10 (date_counts st)).*1.
Proof.
  intros Hagg. unfold q1_memory. rewrite Hagg. simpl.
  destruct (q1_resolve_ok (date_user_counts st)
              (most_common 10 (date_counts st)).*1) as [r Hr].
  { intros d Hd. by apply (q1_top_user_ok f lines). }
  exists r. split; [done|]. by apply q1_resolve_fst in Hr.
Qed.

(** C6.  Every date q1_memory selects has an author in the nested
    table, so the lookup of its top author finds one and the function
    returns a list. *)
Theorem top_dates_have_an_author f lines st :
  q1_aggregate f lines = Ok st →
  (∀ d, d ∈ (most_common 10 (date_counts st)).*1 →
     nested_get d (date_user_counts st) ≠ []
     ∧ ∃ u, top_user (date_user_counts st) d = Ok u)
  ∧ ∃ r, q1_memory f lines = Ok r.
Proof.
  intros Hagg. split.
  - intros d. by apply (q1_top_user_ok f lines).
  - destruct (q1_memory_returns f lines st Hagg) as (r & Hr & _). eauto.
Qed.

Lemma top_dates_have_an_author_witness :
  top_user [(Date 2021 2 1, [(KStr "a", 2)]); (Date 2021 2 2, [(KStr "b", 1)])]
    (Date 2021 2 2) = Ok (KStr "b")
  ∧ ∃ r, q1_memory sample_fromisoformat two_days = Ok r.
Proof.
  destruct (top_dates_have_an_author sample_fromisoformat two_days
              (Q1 [(Date 2021 2 1, 2); (Date 2021 2 2, 1)]
                  [(Date 2021 2 1, [(KStr "a", 2)]);
                   (Date 2021 2 2, [(KStr "b", 1)])]))
    as [_ Hr]; [reflexivity|].
  split; [reflexivity|exact Hr].
Defined.

Lemma tally_length {K} `{EqDecision K} (obs : list K) :
  length (most_common 10 (update obs []))
  = 10 `min` length (remove_dups obs).
Proof.
  rewrite length_most_common, <-length_distinct, <-tally_keys.
  by rewrite length_fmap.
Qed.

(** C8.  q1_memory, q2_memory and q3_memory return min(10, number of
    distinct keys observed) pairs, and the empty list on an empty file. *)
Theorem result_length f g lines :
  (q1_memory f [] = Ok [] ∧ q2_memory g [] = Ok [] ∧ q3_memory [] = Ok [])
  ∧ (∀ r, q1_memory f lines = Ok r →
       length r = 10 `min` length (remove_dups (stream (q1_obs f) lines).*1))
  ∧ (∀ r, q2_memory g lines = Ok r →
       length r = 10 `min` length (remove_dups (stream (q2_obs g) lines)))
  ∧ (∀ r, q3_memory lines = Ok r →
       length r = 10 `min` length (remove_dups (stream q3_obs lines))).
Proof.
  split_and!; try done.
  - intros r Hr. unfold q1_memory in Hr.
    destruct (q1_aggregate f lines) as [st|] eqn:E; [simpl in Hr|done].
    apply q1_resolve_fst in Hr. apply q1_aggregate_stream in E. subst st.
    rewrite q1_apply_date_counts in Hr. simpl in Hr.
    apply (f_equal length) in Hr. rewrite !length_fmap in Hr.
    rewrite Hr. apply tally_length.
  - intros r Hr. unfold q2_memory in Hr.
    destruct (q2_aggregate g lines) as [c|] eqn:E; [simpl in Hr|done].
    injection Hr as <-. apply q2_aggregate_stream in E as ->.
    apply tally_length.
  - intros r Hr. unfold q3_memory in Hr.
    destruct (q3_aggregate lines) as [c|] eqn:E; [simpl in Hr|done].
    injection Hr as <-. apply q3_aggregate_stream in E as ->.
    apply tally_length.
Qed.

Lemma result_length_witness :
  length [(Date 2021 2 1, KStr "a"); (Date 2021 2 2, KStr "b")]
    = 10 `min` length (remove_dups
                        (stream (q1_obs sample_fromisoformat) two_days).*1)
  ∧ length [("🙏", 3); ("😊", 1)]
    = 10 `min` length (remove_dups (stream (q2_obs sample_findall) two_texts))
  ∧ length [(KStr "k1", 2); (KStr "k2", 2); (KStr "k3", 2); (KStr "k4", 2);
            (KStr "k5", 2); (KStr "k6", 2); (KStr "k7", 2); (KStr "k8", 2);
            (KStr "k9", 2); (KStr "k10", 2)]
    = 10 `min` length (remove_dups (stream q3_obs eleven_keys)).
Proof.
  destruct (result_length sample_fromisoformat sample_findall two_days)
    as (_ & H1 & _ & _).
  destruct (result_length sample_fromisoformat sample_findall two_texts)
    as (_ & _ & H2 & _).
  destruct (result_length sample_fromisoformat sample_findall eleven_keys)
    as (_ & _ & _ & H3).
  split_and!; [apply H1|apply H2|apply H3]; reflexivity.
Defined.

(** C7.  A line that is valid JSON and no object ends all three
    functions with an AttributeError, which none of the three except
    clauses catches; so does, in q1_memory, a tweet whose user is null. *)
Theorem non_object_line_aborts f g :
  q1_memory f [Ok (JInt 123)] = Raise AttributeError
  ∧ q2_memory g [Ok (JInt 123)] = Raise AttributeError
  ∧ q3_memory [Ok (JInt 123)] = Raise AttributeError
  ∧ q1_memory sample_fromisoformat
      (two_days
       ++ [Ok (JObj [("date", JStr "2021-02-01T10:00:00Z");
                       ("user", JNull)])])
    = Raise AttributeError.
Proof. by vm_compute. Qed.

(** What the except clauses do catch: a line json.loads rejects with
    JSONDecodeError is passed over by all three loops. *)
Lemma undecodable_line_skipped f g lines :
  q1_memory f (Raise JSONDecodeError :: lines) = q1_memory f lines
  ∧ q2_memory g (Raise JSONDecodeError :: lines) = q2_memory g lines
  ∧ q3_memory (Raise JSONDecodeError :: lines) = q3_memory lines.
Proof. done. Qed.

(** C9 does not hold as stated, twice over.  A tweet that mentions [K]
    once and [A] twice moves [K] from the first place to the second; and
    one more mention of [k0] puts [k0], now with count 2, first and
    [k10], also with count 2, out of the list. *)
Lemma rank_drops_and_tie_displaces :
  (q3_memory K_then_A = Ok [(KStr "K", 1); (KStr "A", 1)]
   ∧ q3_memory (K_then_A ++ [K_and_two_A]) = Ok [(KStr "A", 3); (KStr "K", 2)]
   ∧ rank (KStr "K") [(KStr "K", 1); (KStr "A", 1)] = Some 0
   ∧ rank (KStr "K") [(KStr "A", 3); (KStr "K", 2)] = Some 1)
  ∧ q3_memory eleven_keys
    = Ok [(KStr "k1", 2); (KStr "k2", 2); (KStr "k3", 2); (KStr "k4", 2);
          (KStr "k5", 2); (KStr "k6", 2); (KStr "k7", 2); (KStr "k8", 2);
          (KStr "k9", 2); (KStr "k10", 2)]
  ∧ q3_memory (eleven_keys ++ [one_more_k0])
    = Ok [(KStr "k0", 2); (KStr "k1", 2); (KStr "k2", 2); (KStr "k3", 2);
          (KStr "k4", 2); (KStr "k5", 2); (KStr "k6", 2); (KStr "k7", 2);
          (KStr "k8", 2); (KStr "k9", 2)].
Proof. by vm_compute. Qed.

Lemma more_observations {K} `{EqDecision K} (obs : list K) k n :
  (∀ i, rank k (most_common 10 (update obs [])) = Some i →
     ∃ i', rank k (most_common 10 (update (obs ++ replicate (S n) k) []))
           = Some i' ∧ i' ≤ i)
  ∧ (∀ t, t ∈ (most_common 10 (update obs [])).*1 →
       t ∉ (most_common 10 (update (obs ++ replicate (S n) k) [])).*1 →
       rank t (most_common 10 (update obs [])) = Some 9
       ∧ (occurrences t (obs ++ replicate (S n) k)
          < occurrences k (obs ++ replicate (S n) k)
          ∨ (occurrences t (obs ++ replicate (S n) k)
             = occurrences k (obs ++ replicate (S n) k)
             ∧ earlier k t (obs ++ replicate (S n) k)))).
Proof.
  split.
  - intros i. apply tally_rank.
  - intros t. apply tally_displaces.
Qed.

(** C9, amended.  One more line that observes [k], once or more, and no
    other key leaves [k] at its place in the returned list or moves it
    ahead; and a key leaves the list by it only from the tenth place, and
    only if the new count of [k] is above the count of that key, or equal
    to it with [k] first observed before that key. *)
Theorem only_key_keeps_rank f g lines line :
  (∀ d u r, q1_obs f line = [(d, u)] → q1_memory f lines = Ok r →
     ∃ r', q1_memory f (lines ++ [line]) = Ok r'
       ∧ (∀ i, rank d r = Some i → ∃ i', rank d r' = Some i' ∧ i' ≤ i)
       ∧ (∀ t, t ∈ r.*1 → t ∉ r'.*1 →
            rank t r = Some 9
            ∧ (occurrences t (stream (q1_obs f) (lines ++ [line])).*1
               < occurrences d (stream (q1_obs f) (lines ++ [line])).*1
               ∨ (occurrences t (stream (q1_obs f) (lines ++ [line])).*1
                  = occurrences d (stream (q1_obs f) (lines ++ [line])).*1
                  ∧ earlier d t (stream (q1_obs f) (lines ++ [line])).*1))))
  ∧ (∀ k n r, q2_obs g line = replicate (S n) k → q2_memory g lines = Ok r →
     ∃ r', q2_memory g (lines ++ [line]) = Ok r'
       ∧ (∀ i, rank k r = Some i → ∃ i', rank k r' = Some i' ∧ i' ≤ i)
       ∧ (∀ t, t ∈ r.*1 → t ∉ r'.*1 →
            rank t r = Some 9
            ∧ (occurrences t (stream (q2_obs g) (lines ++ [line]))
               < occurrences k (stream (q2_obs g) (lines ++ [line]))
               ∨ (occurrences t (stream (q2_obs g) (lines ++ [line]))
                  = occurrences k (stream (q2_obs g) (lines ++ [line]))
                  ∧ earlier k t (stream (q2_obs g) (lines ++ [line]))))))
  ∧ (∀ k n r, q3_obs line = replicate (S n) k → q3_memory lines = Ok r →
       ∃ r', q3_memory (lines ++ [line]) = Ok r'
         ∧ (∀ i, rank k r = Some i → ∃ i', rank k r' = Some i' ∧ i' ≤ i)
         ∧ (∀ t, t ∈ r.*1 → t ∉ r'.*1 →
              rank t r = Some 9
              ∧ (occurrences t (stream q3_obs (lines ++ [line]))
                 < occurrences k (stream q3_obs (lines ++ [line]))
                 ∨ (occurrences t (stream q3_obs (lines ++ [line]))
                    = occurrences k (stream q3_obs (lines ++ [line]))
                    ∧ earlier k t (stream q3_obs (lines ++ [line])))))).
Proof.
  split_and!.
  - intros d u r Hk Hr. unfold q1_memory in Hr.
    destruct (q1_aggregate f lines) as [st|] eqn:E; [simpl in Hr|done].
    apply q1_resolve_fst in Hr.
    assert (q1_aggregate f (lines ++ [line]) = Ok (q1_apply [(d, u)] st))
      as Hagg.
    { unfold q1_aggregate in *. rewrite for_lines_app, E.
      cbn [bind for_lines]. rewrite (q1_body_counted f line st), Hk; [done|].
      by rewrite Hk. }
    destruct (q1_memory_returns _ _ _ Hagg) as (r' & Hr' & Hfst).
    exists r'. split; [done|]. unfold rank. rewrite Hr, Hfst.
    apply q1_aggregate_stream in E as ->.
    rewrite <-q1_apply_app, !q1_apply_date_counts, stream_snoc, Hk.
    rewrite fmap_app. apply (more_observations _ d 0).
  - intros k n r Hk Hr. unfold q2_memory in *.
    destruct (q2_aggregate g lines) as [c|] eqn:E; [simpl in Hr|done].
    injection Hr as <-. unfold q2_aggregate in *.
    rewrite for_lines_app, E. cbn [bind for_lines].
    apply (q2_aggregate_stream g) in E as ->. rewrite stream_snoc, Hk.
    destruct (q2_body_obs g line (update (stream (q2_obs g) lines) []))
      as [->|[Hnil _]]; [|by rewrite Hk in Hnil].
    rewrite Hk. eexists. split; [done|]. rewrite <-update_app.
    apply more_observations.
  - intros k n r Hk Hr. unfold q3_memory in *.
    destruct (q3_aggregate lines) as [c|] eqn:E; [simpl in Hr|done].
    injection Hr as <-. unfold q3_aggregate in *.
    rewrite for_lines_app, E. cbn [bind for_lines].
    apply q3_aggregate_stream in E as ->. rewrite stream_snoc, Hk.
    destruct (q3_body_obs line (update (stream q3_obs lines) []))
      as [->|[->|[Hnil _]]]; [| |by rewrite Hk in Hnil].
    + rewrite Hk. eexists. split; [done|]. rewrite <-update_app.
      apply more_observations.
    + rewrite Hk. eexists. split; [done|]. rewrite <-update_app.
      apply more_observations.
Qed.

Lemma only_key_keeps_rank_witness :
  (∃ r', q1_memory sample_fromisoformat
           (two_days_tied ++ [tweet_by "2021-02-01T10:00:00Z" "a"]) = Ok r'
         ∧ ∃ i', rank (Date 2021 2 1) r' = Some i' ∧ i' ≤ 1)
  ∧ (∃ r', q2_memory sample_findall (two_texts ++ [tweet_saying "🙏"]) = Ok r'
           ∧ ∃ i', rank "🙏" r' = Some i' ∧ i' ≤ 0)
  ∧ rank (KStr "k10")
      [(KStr "k1", 2); (KStr "k2", 2); (KStr "k3", 2); (KStr "k4", 2);
       (KStr "k5", 2); (KStr "k6", 2); (KStr "k7", 2); (KStr "k8", 2);
       (KStr "k9", 2); (KStr "k10", 2)] = Some 9
  ∧ (occurrences (KStr "k10") (stream q3_obs (eleven_keys ++ [one_more_k0]))
     < occurrences (KStr "k0") (stream q3_obs (eleven_keys ++ [one_more_k0]))
     ∨ (occurrences (KStr "k10") (stream q3_obs (eleven_keys ++ [one_more_k0]))
        = occurrences (KStr "k0") (stream q3_obs (eleven_keys ++ [one_more_k0]))
        ∧ earlier (KStr "k0") (KStr "k10")
            (stream q3_obs (eleven_keys ++ [one_more_k0])))).
Proof.
  split; [|split].
  - destruct (only_key_keeps_rank sample_fromisoformat sample_findall
                two_days_tied (tweet_by "2021-02-01T10:00:00Z" "a"))
      as (H1 & _ & _).
    destruct (H1 (Date 2021 2 1) (KStr "a")
                [(Date 2021 2 2, KStr "b"); (Date 2021 2 1, KStr "a")])
      as (r' & Hr' & Hrank & _); [reflexivity..|].
    exists r'. split; [done|]. by apply Hrank.
  - destruct (only_key_keeps_rank sample_fromisoformat sample_findall
                two_texts (tweet_saying "🙏")) as (_ & H2 & _).
    destruct (H2 "🙏" 0 [("🙏", 3); ("😊", 1)]) as (r' & Hr' & Hrank & _);
      [reflexivity..|].
    exists r'. split; [done|]. by apply Hrank.
  - destruct (only_key_keeps_rank sample_fromisoformat sample_findall
                eleven_keys one_more_k0) as (_ & _ & H3).
    destruct (H3 (KStr "k0") 0
                [(KStr "k1", 2); (KStr "k2", 2); (KStr "k3", 2);
                 (KStr "k4", 2); (KStr "k5", 2); (KStr "k6", 2);
                 (KStr "k7", 2); (KStr "k8", 2); (KStr "k9", 2);
                 (KStr "k10", 2)]) as (r' & Hr' & _ & Hout);
      [reflexivity..|].
    apply Hout.
    + apply list_elem_of_In. vm_compute. tauto.
    + vm_compute in Hr'. injection Hr' as <-.
      intros Hin%list_elem_of_In. vm_compute in Hin.
      repeat (destruct Hin as [Hin|Hin]; [discriminate Hin|]). done.
Defined.

Lemma q1_count_lines f d lines st0 st :
  for_lines q1_handlers (q1_body f) lines st0 = Ok st →
  count_of d (date_counts st)
  = count_of d (date_counts st0)
    + length (filter (λ line, q1_counted f d line) lines).
Proof.
  revert st0. induction lines as [|line lines IH]; intros st0; simpl.
  - intros [= <-]. lia.
  - rewrite filter_cons.
    assert (q1_body f line st0 =
            match q1_fields f line with
            | Raise e => Raised st0 e
            | Ok None => Done st0
            | Ok (Some (date_obj, username)) =>
                match hashable username with
                | Some u => Done (q1_apply [(date_obj, u)] st0)
                | None =>
                    Raised (Q1 (incr date_obj (date_counts st0))
                               (nested_touch date_obj (date_user_counts st0)))
                      TypeError
                end
            end) as -> by done.
    assert (q1_counted f d line =
            match q1_fields f line with
            | Ok (Some (date_obj, _)) => bool_decide (date_obj = d)
            | _ => false
            end) as -> by done.
    destruct (q1_fields f line) as [[[d' username]|]|e].
    + destruct (hashable username) as [u|]; [|done].
      intros ->%IH. simpl. rewrite count_of_incr.
      destruct (decide (d' = d)) as [->|Hne].
      * rewrite decide_True by (by apply bool_decide_pack). simpl. lia.
      * rewrite decide_False by (by intros ?%bool_decide_unpack). lia.
    + intros ->%IH. by destruct (decide (Is_true false)) as [[]|].
    + change (isinstance e JSONDecodeError || _)
        with (caught q1_handlers e).
      destruct (caught q1_handlers e); [|done].
      intros ->%IH. by destruct (decide (Is_true false)) as [[]|].
Qed.

Lemma q1_counted_inv f line d :
  q1_counted f d line = true →
  ∃ fields s user username,
    line = Ok (JObj fields)
    ∧ dict_get "date" fields = Some (JStr s) ∧ s ≠ ""
    ∧ f (replace_Z s) = Some d
    ∧ dict_get "user" fields = Some (JObj user)
    ∧ dict_get "username" user = Some username
    ∧ truthy username = true.
Proof.
  unfold q1_counted, q1_fields.
  destruct line as [[| | | | |fields]|]; try done. simpl.
  destruct (dict_get "date" fields) as [date_str|] eqn:Hdate; simpl; [|done].
  destruct (truthy date_str) eqn:Ht; simpl; [|done].
  destruct date_str as [| | |s| |]; try done.
  destruct (f (replace_Z s)) as [d'|] eqn:Hd; [|done].
  destruct (dict_get "user" fields) as [[| | | | |user]|] eqn:Huser;
    simpl; try done.
  destruct (dict_get "username" user) as [username|] eqn:Hname;
    simpl; [|done].
  destruct (truthy username) eqn:Hu; simpl; [|done].
  intros ->%bool_decide_eq_true. exists fields, s, user, username.
  split_and!; try done.
  intros ->. done.
Qed.

(** C10.  A line of q1_memory with a date that parses and no author
    (no user object, or none with a non-empty username) leaves both
    tables as they are; so the count of a date is the number of lines
    with that date and an author, and a line is among them only if it
    has a non-empty date that parses and a non-empty username. *)
Theorem no_author_no_count f :
  (∀ fields s d st,
     dict_get "date" fields = Some (JStr s) → s ≠ "" →
     f (replace_Z s) = Some d → no_username fields = true →
     q1_body f (Ok (JObj fields)) st = Done st)
  ∧ (∀ lines st d, q1_aggregate f lines = Ok st →
       count_of d (date_counts st)
       = length (filter (λ line, q1_counted f d line) lines))
  ∧ (∀ line d, q1_counted f d line = true →
       ∃ fields s user username,
         line = Ok (JObj fields)
         ∧ dict_get "date" fields = Some (JStr s) ∧ s ≠ ""
         ∧ f (replace_Z s) = Some d
         ∧ dict_get "user" fields = Some (JObj user)
         ∧ dict_get "username" user = Some username
         ∧ truthy username = true).
Proof.
  split_and!; [| |apply q1_counted_inv].
  - intros fields s d st Hdate Hs Hd Huser.
    unfold q1_body, q1_fields, no_username in *. simpl.
    rewrite Hdate. simpl.
    destruct (String.eqb_spec s ""); [done|]. simpl. rewrite Hd.
    destruct (dict_get "user" fields) as [[| | | | |user]|]; try done; simpl.
    destruct (dict_get "username" user) as [username|]; simpl; [|done].
    apply negb_true_iff in Huser. by rewrite Huser.
  - intros lines st d Hagg. by apply q1_count_lines with (d := d) in Hagg.
Qed.

Lemma no_author_no_count_witness :
  q1_body sample_fromisoformat
    (Ok (JObj [("date", JStr "2021-02-01T10:00:00Z");
                 ("user", JObj [("username", JStr "")])]))
    (Q1 [(Date 2021 2 1, 2)] [(Date 2021 2 1, [(KStr "a", 2)])])
  = Done (Q1 [(Date 2021 2 1, 2)] [(Date 2021 2 1, [(KStr "a", 2)])])
  ∧ count_of (Date 2021 2 1) [(Date 2021 2 1, 2); (Date 2021 2 2, 1)]
    = length (filter (λ line, q1_counted sample_fromisoformat
                                (Date 2021 2 1) line)
                (two_days
                 ++ [Ok (JObj [("date", JStr "2021-02-01T10:00:00Z")])])).
Proof.
  destruct (no_author_no_count sample_fromisoformat) as (H1 & H2 & _). split.
  - apply (H1 _ "2021-02-01T10:00:00Z" (Date 2021 2 1)); done.
  - apply (H2 _ (Q1 [(Date 2021 2 1, 2); (Date 2021 2 2, 1)]
                    [(Date 2021 2 1, [(KStr "a", 2)]);
                     (Date 2021 2 2, [(KStr "b", 1)])])).
    reflexivity.
Defined.

(** * Further properties *)

Lemma other_results_descending_witness :
  occurrences (Date 2021 2 2)
    (stream (q1_obs sample_fromisoformat) two_days).*1
  ≤ occurrences (Date 2021 2 1)
      (stream (q1_obs sample_fromisoformat) two_days).*1
  ∧ 1 ≤ 3 ∧ 2 ≤ 3 ∧ 1 ≤ 3 ∧ 1 ≤ 2.
Proof.
  destruct (other_results_descending sample_fromisoformat sample_findall
              two_days [(Some "🙏🙏😊", None); (None, Some "🙏")]
              [Some [Some "K"; Some "A"; Some "K"]])
    as (H2t & H3t & H1 & _).
  destruct (other_results_descending sample_fromisoformat sample_findall
              two_texts [] []) as (_ & _ & _ & H2 & _).
  destruct (other_results_descending sample_fromisoformat sample_findall
              (K_then_A ++ [K_and_two_A]) [] []) as (_ & _ & _ & _ & H3).
  split_and!.
  - apply (H1 [(Date 2021 2 1, KStr "a"); (Date 2021 2 2, KStr "b")] 0 1
              (Date 2021 2 1, KStr "a") (Date 2021 2 2, KStr "b"));
      try done. lia.
  - apply (H2 [("🙏", 3); ("😊", 1)] 0 1 ("🙏", 3) ("😊", 1)); try done. lia.
  - apply (H3 [(KStr "A", 3); (KStr "K", 2)] 0 1 (KStr "A", 3) (KStr "K", 2));
      try done. lia.
  - apply (H2t 0 1 ("🙏", 3) ("😊", 1)); try done. lia.
  - apply (H3t 0 1 ("K", 2) ("A", 1)); try done. lia.
Defined.

(** ** What the returned lists hold *)

Lemma most_common_exact {K} `{EqDecision K} m (obs : list K) :
  NoDup (most_common m (update obs [])).*1
  ∧ ∀ k n, (k, n) ∈ most_common m (update obs []) →
           1 ≤ n ∧ n = occurrences k obs.
Proof.
  split.
  - unfold most_common. rewrite fmap_take.
    eapply sublist_NoDup; [|apply sublist_take].
    apply sorted_keys_NoDup, update_NoDup, NoDup_nil_2.
  - intros k n Hin%elem_of_most_common.
    pose proof (update_positive obs [] (Forall_nil_2 _)) as Hpos.
    rewrite Forall_forall in Hpos. apply Hpos in Hin as Hn.
    by apply elem_of_tally in Hin as [_ ->].
Qed.

(** X2.  The keys of a returned list are pairwise distinct, and the
    count returned with a key is the number of its observations, which
    is at least one. *)
Theorem returned_counts_exact f g lines :
  (∀ r, q1_memory f lines = Ok r →
     NoDup r.*1
     ∧ ∀ d u, (d, u) ∈ r →
              1 ≤ occurrences d (stream (q1_obs f) lines).*1)
  ∧ (∀ r, q2_memory g lines = Ok r →
       NoDup r.*1
       ∧ ∀ k n, (k, n) ∈ r →
                1 ≤ n ∧ n = occurrences k (stream (q2_obs g) lines))
  ∧ (∀ r, q3_memory lines = Ok r →
       NoDup r.*1
       ∧ ∀ k n, (k, n) ∈ r →
                1 ≤ n ∧ n = occurrences k (stream q3_obs lines)).
Proof.
  split_and!.
  - intros r Hr. unfold q1_memory in Hr.
    destruct (q1_aggregate f lines) as [st|] eqn:E; [simpl in Hr|done].
    apply q1_resolve_fst in Hr. apply q1_aggregate_stream in E. subst st.
    rewrite q1_apply_date_counts in Hr. simpl in Hr.
    destruct (most_common_exact 10 (stream (q1_obs f) lines).*1)
      as [Hnd Hex].
    rewrite Hr. split; [done|]. intros d u Hin.
    apply (list_elem_of_fmap_2 fst) in Hin. rewrite Hr in Hin.
    apply list_elem_of_fmap in Hin as ([d' n] & Heq & Hin).
    simpl in Heq. subst d'. apply Hex in Hin as [Hn ->]. done.
  - intros r Hr. unfold q2_memory in Hr.
    destruct (q2_aggregate g lines) as [c|] eqn:E; [simpl in Hr|done].
    injection Hr as <-. apply q2_aggregate_stream in E as ->.
    apply most_common_exact.
  - intros r Hr. unfold q3_memory in Hr.
    destruct (q3_aggregate lines) as [c|] eqn:E; [simpl in Hr|done].
    injection Hr as <-. apply q3_aggregate_stream in E as ->.
    apply most_common_exact.
Qed.

Lemma returned_counts_exact_witness :
  1 ≤ occurrences (Date 2021 2 2)
        (stream (q1_obs sample_fromisoformat) two_days).*1
  ∧ 3 = occurrences "🙏" (stream (q2_obs sample_findall) two_texts)
  ∧ 2 = occurrences (KStr "K") (stream q3_obs (K_then_A ++ [K_and_two_A])).
Proof.
  destruct (returned_counts_exact sample_fromisoformat sample_findall
              two_days) as (H1 & _ & _).
  destruct (returned_counts_exact sample_fromisoformat sample_findall
              two_texts) as (_ & H2 & _).
  destruct (returned_counts_exact sample_fromisoformat sample_findall
              (K_then_A ++ [K_and_two_A])) as (_ & _ & H3).
  split_and!.
  - destruct (H1 [(Date 2021 2 1, KStr "a"); (Date 2021 2 2, KStr "b")])
      as [_ Hd]; [reflexivity|].
    apply (Hd _ (KStr "b")). right. left.
  - destruct (H2 [("🙏", 3); ("😊", 1)]) as [_ Hk]; [reflexivity|].
    apply Hk. left.
  - destruct (H3 [(KStr "A", 3); (KStr "K", 2)]) as [_ Hk]; [reflexivity|].
    apply Hk. right. left.
Defined.

Lemma most_common_left_out {K} `{EqDecision K} m (obs : list K) k :
  k ∈ obs → k ∉ (most_common m (update obs [])).*1 →
  length (most_common m (update obs [])) = m
  ∧ ∀ k' n', (k', n') ∈ most_common m (update obs []) →
             occurrences k obs < n'
             ∨ (occurrences k obs = n' ∧ earlier k' k obs).
Proof.
  intros Hk Hout.
  assert ((k, occurrences k obs) ∈ sorted_desc count_lt (update obs []))
    as Hin by by apply elem_of_sorted_desc, elem_of_tally.
  apply list_elem_of_lookup in Hin as [i Hi].
  assert (m ≤ i) as Hmi.
  { destruct (decide (m ≤ i)) as [|Hlt]; [done|]. destruct Hout.
    apply (list_elem_of_fmap_2' fst _ (k, occurrences k obs)); [|done].
    apply elem_of_take. exists i. split; [done|lia]. }
  split.
  - rewrite length_most_common. apply lookup_lt_Some in Hi.
    rewrite length_sorted_desc in Hi. lia.
  - intros k' n' (j & Hj & Hjm)%elem_of_take.
    assert (j < i) as Hlt by lia.
    pose proof (before_lookup _ _ _ j i Hj Hi Hlt) as Hb.
    apply (before_sorted_desc snd) in Hb as [(_ & _ & Hl)|[Heq Hb]];
      simpl in *; [by left|right].
    split; [done|]. by apply before_tally in Hb.
Qed.

(** X3.  A key that was observed and is not in the returned list is
    beaten by every key of the list, which is then 10 long: its count is
    lower, or equal with the listed key first observed before it. *)
Theorem left_out_keys_are_beaten f g lines :
  (∀ r d, q1_memory f lines = Ok r →
     d ∈ (stream (q1_obs f) lines).*1 → d ∉ r.*1 →
     length r = 10
     ∧ ∀ d' u', (d', u') ∈ r →
         occurrences d (stream (q1_obs f) lines).*1
         < occurrences d' (stream (q1_obs f) lines).*1
         ∨ (occurrences d (stream (q1_obs f) lines).*1
            = occurrences d' (stream (q1_obs f) lines).*1
            ∧ earlier d' d (stream (q1_obs f) lines).*1))
  ∧ (∀ r k, q2_memory g lines = Ok r →
       k ∈ stream (q2_obs g) lines → k ∉ r.*1 →
       length r = 10
       ∧ ∀ k' n', (k', n') ∈ r →
           occurrences k (stream (q2_obs g) lines) < n'
           ∨ (occurrences k (stream (q2_obs g) lines) = n'
              ∧ earlier k' k (stream (q2_obs g) lines)))
  ∧ (∀ r k, q3_memory lines = Ok r →
       k ∈ stream q3_obs lines → k ∉ r.*1 →
       length r = 10
       ∧ ∀ k' n', (k', n') ∈ r →
           occurrences k (stream q3_obs lines) < n'
           ∨ (occurrences k (stream q3_obs lines) = n'
              ∧ earlier k' k (stream q3_obs lines))).
Proof.
  split_and!.
  - intros r d Hr Hd Hout. unfold q1_memory in Hr.
    destruct (q1_aggregate f lines) as [st|] eqn:E; [simpl in Hr|done].
    apply q1_resolve_fst in Hr. apply q1_aggregate_stream in E. subst st.
    rewrite q1_apply_date_counts in Hr. simpl in Hr. rewrite Hr in Hout.
    destruct (most_common_left_out 10 _ d Hd Hout) as [Hlen Hbeat].
    split.
    + by rewrite <-(length_fmap fst), Hr, length_fmap.
    + intros d' u' Hin. apply (list_elem_of_fmap_2 fst) in Hin.
      rewrite Hr in Hin.
      apply list_elem_of_fmap in Hin as ([d0 n0] & Heq & Hin).
      simpl in Heq. subst d0. destruct (most_common_exact 10 (stream (q1_obs f) lines).*1)
        as [_ Hex].
      apply Hex in Hin as Hn. destruct Hn as [_ Hn]. rewrite <-Hn.
      by apply Hbeat.
  - intros r k Hr. unfold q2_memory in Hr.
    destruct (q2_aggregate g lines) as [c|] eqn:E; [simpl in Hr|done].
    injection Hr as <-. apply q2_aggregate_stream in E as ->.
    apply most_common_left_out.
  - intros r k Hr. unfold q3_memory in Hr.
    destruct (q3_aggregate lines) as [c|] eqn:E; [simpl in Hr|done].
    injection Hr as <-. apply q3_aggregate_stream in E as ->.
    apply most_common_left_out.
Qed.

Lemma left_out_keys_are_beaten_witness :
  length [(KStr "k1", 2); (KStr "k2", 2); (KStr "k3", 2); (KStr "k4", 2);
          (KStr "k5", 2); (KStr "k6", 2); (KStr "k7", 2); (KStr "k8", 2);
          (KStr "k9", 2); (KStr "k10", 2)] = 10
  ∧ (occurrences (KStr "k0") (stream q3_obs eleven_keys) < 2
     ∨ (occurrences (KStr "k0") (stream q3_obs eleven_keys) = 2
        ∧ earlier (KStr "k1") (KStr "k0") (stream q3_obs eleven_keys))).
Proof.
  destruct (left_out_keys_are_beaten sample_fromisoformat sample_findall
              eleven_keys) as (_ & _ & H3).
  destruct (H3 [(KStr "k1", 2); (KStr "k2", 2); (KStr "k3", 2);
                (KStr "k4", 2); (KStr "k5", 2); (KStr "k6", 2);
                (KStr "k7", 2); (KStr "k8", 2); (KStr "k9", 2);
                (KStr "k10", 2)] (KStr "k0")) as [Hlen Hbeat].
  - reflexivity.
  - apply list_elem_of_In. vm_compute. tauto.
  - intros Hin%list_elem_of_In. vm_compute in Hin.
    repeat (destruct Hin as [Hin|Hin]; [discriminate Hin|]). done.
  - split; [exact Hlen|]. apply Hbeat. left.
Defined.

Lemma most_common_first_among_equals {K} `{EqDecision K}
    (obs : list K) u n rest u' :
  most_common 1 (update obs []) = (u, n) :: rest →
  u' ≠ u → occurrences u' obs = occurrences u obs → earlier u u' obs.
Proof.
  intros Htop Hne Hocc.
  destruct (top_of_tally obs u n rest Htop) as [Hone _].
  apply most_common_head in Htop as Hu. destruct Hu as [Hu _].
  apply elem_of_tally in Hu as [_ ->].
  assert (u' ∈ obs) as Hu'.
  { destruct (decide (u' ∈ obs)) as [|Hnot]; [done|].
    rewrite (occurrences_notin u') in Hocc by done. lia. }
  assert ((u', occurrences u obs) ∈ sorted_desc count_lt (update obs []))
    as Hin.
  { apply elem_of_sorted_desc, elem_of_tally. by rewrite Hocc. }
  unfold most_common in Htop.
  destruct (sorted_desc count_lt (update obs [])) as [|x l] eqn:E; [done|].
  simpl in Htop. injection Htop as -> _.
  apply elem_of_cons in Hin as [[= ->]|Hin]; [done|].
  assert (before (u, occurrences u obs) (u', occurrences u obs)
            (sorted_desc count_lt (update obs []))) as Hb.
  { rewrite E. left. done. }
  apply (before_sorted_desc snd) in Hb as [(_ & _ & Hl)|[_ Hb]];
    simpl in *; [lia|].
  by apply before_tally in Hb.
Qed.

(** X4.  When several authors have the most tweets on a date, q1_memory
    returns the one whose first tweet counted under that date comes
    first in the file. *)
Theorem top_user_first_among_equals f lines r d u u' :
  q1_memory f lines = Ok r → (d, u) ∈ r → u' ≠ u →
  occurrences (d, u') (stream (q1_obs f) lines)
  = occurrences (d, u) (stream (q1_obs f) lines) →
  earlier u u' (users_on d (stream (q1_obs f) lines)).
Proof.
  intros Hr Hin Hne Hocc. unfold q1_memory in Hr.
  destruct (q1_aggregate f lines) as [st|] eqn:E; [simpl in Hr|done].
  apply (q1_resolve_top_user _ _ _ d u) in Hr; [|done].
  apply q1_aggregate_stream in E. subst st. unfold top_user in Hr.
  rewrite q1_apply_nested in Hr. simpl in Hr.
  destruct (most_common 1 _) as [|[u0 n] rest] eqn:Htop; [done|].
  injection Hr as ->.
  apply (most_common_first_among_equals _ u n rest u'); [done..|].
  unfold users_on. by rewrite !occurrences_pair.
Qed.

Lemma top_user_first_among_equals_witness :
  earlier (KStr "b") (KStr "a")
    (users_on (Date 2021 2 1)
       (stream (q1_obs sample_fromisoformat) one_day_tied)).
Proof.
  apply (top_user_first_among_equals sample_fromisoformat one_day_tied
           [(Date 2021 2 1, KStr "b")]); [reflexivity|left|done|reflexivity].
Defined.

(** ** Which lines end a run *)

Lemma for_lines_ok {L S} h (body : L → S → outcome S) lines s :
  (∀ line s, line ∈ lines →
     (∃ s', body line s = Done s')
     ∨ (∃ s' e, body line s = Raised s' e ∧ caught h e = true)) →
  ∃ s', for_lines h body lines s = Ok s'.
Proof.
  revert s. induction lines as [|line lines IH]; intros s Hok; simpl; [eauto|].
  assert (∀ line s, line ∈ lines →
            (∃ s', body line s = Done s')
            ∨ (∃ s' e, body line s = Raised s' e ∧ caught h e = true)) as Hok'.
  { intros line' s' Hin. apply Hok. by right. }
  destruct (Hok line s) as [[s' ->]|(s' & e & -> & ->)]; [left|..]; auto.
Qed.

Lemma q1_body_well_typed f line st :
  well_typed_line line = true →
  (∃ st', q1_body f line st = Done st')
  ∨ (∃ st' e, q1_body f line st = Raised st' e ∧ caught q1_handlers e = true).
Proof.
  destruct line as [[| | | | |fields]|e]; try done;
    [|intros ->%bool_decide_eq_true; right; by eexists _, _].
  unfold well_typed_line, well_typed_tweet, is_str_field, str_field.
  unfold q1_body, q1_fields. simpl.
  destruct (dict_get "date" fields) as [[| | |s| |]|]; simpl; try done;
    eauto.
  destruct (String.eqb s ""); simpl; [eauto|].
  destruct (f (replace_Z s)) as [d|]; [|right; by eexists _, _].
  destruct (dict_get "content" fields) as [[| | | | |]|]; simpl; try done.
  all: destruct (dict_get "renderedContent" fields) as [[| | | | |]|];
    simpl; try done.
  all: destruct (dict_get "user" fields) as [[| | | | |user]|];
    simpl; try done; eauto.
  all: destruct (dict_get "username" user) as [[| | |u| |]|];
    simpl; try done; eauto.
  all: destruct (String.eqb u ""); simpl; eauto.
Qed.

Lemma str_field_get k fields :
  is_str_field k fields = true →
  default (JStr "") (dict_get k fields) = JNull
  ∨ ∃ s, default (JStr "") (dict_get k fields) = JStr s.
Proof.
  unfold is_str_field, str_field.
  destruct (dict_get k fields) as [[| | | | |]|]; simpl; try done; eauto.
Qed.

Lemma q2_body_well_typed g line c :
  well_typed_line line = true →
  (∃ c', q2_body g line c = Done c')
  ∨ (∃ c' e, q2_body g line c = Raised c' e ∧ caught q2_handlers e = true).
Proof.
  destruct line as [[| | | | |fields]|e]; try done;
    [|intros ->%bool_decide_eq_true; right; by eexists _, _].
  unfold well_typed_line, well_typed_tweet.
  intros [[[_ Hc%str_field_get]%andb_true_iff
             Hrc%str_field_get]%andb_true_iff _]%andb_true_iff.
  unfold q2_body, q2_emojis. simpl.
  destruct Hc as [->|[s ->]]; simpl.
  - destruct Hrc as [->|[s' ->]]; simpl; [eauto|].
    destruct (String.eqb s' "") eqn:Es'; simpl; rewrite ?Es'; simpl; eauto.
  - destruct (String.eqb s "") eqn:Es; simpl; rewrite ?Es; simpl; [|eauto].
    destruct Hrc as [->|[s' ->]]; simpl; [eauto|].
    destruct (String.eqb s' "") eqn:Es'; simpl; rewrite ?Es'; simpl; eauto.
Qed.

Lemma q3_body_object line c :
  object_line line = true →
  (∃ c', q3_body line c = Done c')
  ∨ (∃ c' e, q3_body line c = Raised c' e ∧ caught q3_handlers e = true).
Proof.
  destruct line as [[| | | | |fields]|e]; try done;
    [|intros He; right; by exists c, e].
  intros _. unfold q3_body. simpl.
  destruct (truthy _); [|eauto].
  destruct (py_iter _) as [users|e] eqn:E.
  - destruct (q3_mentions_obs users c) as [->| ->]; [eauto|].
    right. by eexists _, _.
  - right. exists c, e. split; [done|].
    unfold py_iter in E. by destruct (default _ _); simplify_eq.
Qed.

Lemma well_typed_object line :
  well_typed_line line = true → object_line line = true.
Proof.
  destruct line as [[]|e]; try done. by intros ->%bool_decide_eq_true.
Qed.

(** X5.  On a file whose lines are each rejected by json.loads with
    JSONDecodeError or an object with a string, null or no value under
    date, content and renderedContent, and no user or a user object with
    such a username, all three functions return a list. *)
Theorem well_typed_lines_never_abort f g lines :
  forallb well_typed_line lines = true →
  (∃ r, q1_memory f lines = Ok r)
  ∧ (∃ r, q2_memory g lines = Ok r)
  ∧ (∃ r, q3_memory lines = Ok r).
Proof.
  intros Hall. apply Is_true_true, forallb_True in Hall.
  rewrite Forall_forall in Hall.
  assert (∀ line, line ∈ lines → well_typed_line line = true) as Hwt.
  { intros line Hin. by apply Is_true_true, Hall. }
  split_and!.
  - destruct (for_lines_ok q1_handlers (q1_body f) lines (Q1 [] []))
      as [st Hst].
    { intros line s Hin. by apply q1_body_well_typed, Hwt. }
    destruct (q1_memory_returns f lines st Hst) as (r & Hr & _). eauto.
  - destruct (for_lines_ok q2_handlers (q2_body g) lines []) as [c Hc].
    { intros line s Hin. by apply q2_body_well_typed, Hwt. }
    unfold q2_memory, q2_aggregate. rewrite Hc. simpl. eauto.
  - destruct (for_lines_ok q3_handlers q3_body lines []) as [c Hc].
    { intros line s Hin. by apply q3_body_object, well_typed_object, Hwt. }
    unfold q3_memory, q3_aggregate. rewrite Hc. simpl. eauto.
Qed.

Lemma well_typed_lines_never_abort_witness :
  (∃ r, q1_memory sample_fromisoformat mixed_lines = Ok r)
  ∧ (∃ r, q2_memory sample_findall mixed_lines = Ok r)
  ∧ (∃ r, q3_memory mixed_lines = Ok r).
Proof.
  apply (well_typed_lines_never_abort sample_fromisoformat sample_findall
           mixed_lines).
  reflexivity.
Defined.

Lemma q3_non_object_raises lines c :
  forallb object_line lines = false →
  ∃ e, for_lines q3_handlers q3_body lines c = Raise e
       ∧ caught q3_handlers e = false
       ∧ (e = AttributeError ∨ Raise e ∈ lines).
Proof.
  revert c. induction lines as [|line lines IH]; intros c; [done|].
  cbn [for_lines forallb]. destruct (object_line line) eqn:Hobj.
  - intros Hrest.
    assert (∀ c', ∃ e, for_lines q3_handlers q3_body lines c' = Raise e
                       ∧ caught q3_handlers e = false
                       ∧ (e = AttributeError ∨ Raise e ∈ line :: lines))
      as Hgo.
    { intros c'. destruct (IH c' Hrest) as (e & He & Hc & [Heq|Hin]);
        exists e; rewrite elem_of_cons; auto. }
    destruct (q3_body_object line c Hobj) as [[c' ->]|(c' & e & -> & ->)];
      auto.
  - intros _. destruct line as [tweet|e].
    + exists AttributeError. destruct tweet; try done; split_and!; auto.
    + exists e. cbn [object_line] in Hobj. cbn [q3_body]. rewrite Hobj.
      split_and!; [done..|]. right. apply list_elem_of_here.
Qed.

(** X6.  q3_memory returns a list exactly when every line is an object
    or is rejected by json.loads with an exception its except clause
    lists (JSONDecodeError); otherwise it ends with an exception the
    clause does not list: the AttributeError of a line that is valid JSON
    and no object, or the exception json.loads raised on a line. *)
Theorem q3_memory_aborts_on_non_objects lines :
  (forallb object_line lines = true → ∃ r, q3_memory lines = Ok r)
  ∧ (forallb object_line lines = false →
       ∃ e, q3_memory lines = Raise e
            ∧ caught q3_handlers e = false
            ∧ (e = AttributeError ∨ Raise e ∈ lines)).
Proof.
  split.
  - intros Hall. apply Is_true_true, forallb_True in Hall.
    rewrite Forall_forall in Hall.
    destruct (for_lines_ok q3_handlers q3_body lines []) as [c Hc].
    { intros line s Hin. by apply q3_body_object, Is_true_true, Hall. }
    unfold q3_memory, q3_aggregate. rewrite Hc. simpl. eauto.
  - intros Hsome. unfold q3_memory, q3_aggregate.
    destruct (q3_non_object_raises lines [] Hsome) as (e & -> & He).
    by exists e.
Qed.

Lemma q3_memory_aborts_on_non_objects_witness :
  (∃ r, q3_memory mixed_lines = Ok r)
  ∧ (∃ e, q3_memory (mixed_lines ++ [Ok (JArr [])] ++ K_then_A) = Raise e
          ∧ caught q3_handlers e = false
          ∧ (e = AttributeError
             ∨ Raise e ∈ mixed_lines ++ [Ok (JArr [])] ++ K_then_A))
  ∧ (∃ e, q3_memory (mixed_lines ++ [Raise ValueError] ++ K_then_A) = Raise e
          ∧ caught q3_handlers e = false
          ∧ (e = AttributeError
             ∨ Raise e ∈ mixed_lines ++ [Raise ValueError] ++ K_then_A)).
Proof.
  destruct (q3_memory_aborts_on_non_objects mixed_lines) as [Hok _].
  destruct (q3_memory_aborts_on_non_objects
              (mixed_lines ++ [Ok (JArr [])] ++ K_then_A)) as [_ Hbad].
  destruct (q3_memory_aborts_on_non_objects
              (mixed_lines ++ [Raise ValueError] ++ K_then_A))
    as [_ Hrejected].
  split; [|split]; [apply Hok|apply Hbad|apply Hrejected]; reflexivity.
Defined.

(** ** Order of the lines, and files in parts *)

Lemma occurrences_Permutation {K} `{EqDecision K} (k : K) l l' :
  l ≡ₚ l' → occurrences k l = occurrences k l'.
Proof. unfold occurrences. by intros ->. Qed.

Lemma occurrences_app {K} `{EqDecision K} (k : K) l l' :
  occurrences k (l ++ l') = occurrences k l + occurrences k l'.
Proof. unfold occurrences. by rewrite filter_app, length_app. Qed.

Lemma descending_StronglySorted {A} (key : A → nat) l :
  descending key l → StronglySorted (λ a b, b ≤ a) (key <$> l).
Proof.
  induction l as [|x l IH]; [constructor|].
  intros [Hx Hl]%descending_cons. rewrite fmap_cons. constructor; [auto|].
  apply Forall_fmap, Forall_forall. intros y Hy. simpl. auto.
Qed.

Lemma tally_Permutation {K} `{EqDecision K} (obs obs' : list K) :
  obs ≡ₚ obs' → update obs [] ≡ₚ update obs' [].
Proof.
  intros Hp. apply NoDup_Permutation.
  - eapply NoDup_fmap_1, update_NoDup, NoDup_nil_2.
  - eapply NoDup_fmap_1, update_NoDup, NoDup_nil_2.
  - intros [k n]. rewrite !elem_of_tally.
    rewrite (occurrences_Permutation k obs obs') by done.
    by rewrite (elem_of_Permutation_proper k obs obs' Hp).
Qed.

Lemma most_common_counts_Permutation {K} m (c c' : Counter K) :
  c ≡ₚ c' → (most_common m c).*2 = (most_common m c').*2.
Proof.
  intros Hp. unfold most_common. rewrite !fmap_take. f_equal.
  apply (StronglySorted_unique_strong (λ a b, b ≤ a)).
  - intros; lia.
  - apply (descending_StronglySorted snd), (sorted_desc_descending snd).
  - apply (descending_StronglySorted snd), (sorted_desc_descending snd).
  - by rewrite !sorted_desc_perm, Hp.
Qed.

(** X7.  Putting the lines of a file in another order changes no count
    of the tables, and so not the counts q2_memory and q3_memory return,
    place by place; only keys with equal counts can change places. *)
Theorem counts_ignore_line_order f g lines lines' :
  lines ≡ₚ lines' →
  (∀ st st', q1_aggregate f lines = Ok st → q1_aggregate f lines' = Ok st' →
     ∀ d u, count_of d (date_counts st) = count_of d (date_counts st')
            ∧ count_of u (nested_get d (date_user_counts st))
              = count_of u (nested_get d (date_user_counts st')))
  ∧ (∀ r r', q2_memory g lines = Ok r → q2_memory g lines' = Ok r' →
       r.*2 = r'.*2
       ∧ ∀ k, occurrences k (stream (q2_obs g) lines)
              = occurrences k (stream (q2_obs g) lines'))
  ∧ (∀ r r', q3_memory lines = Ok r → q3_memory lines' = Ok r' →
       r.*2 = r'.*2
       ∧ ∀ k, occurrences k (stream q3_obs lines)
              = occurrences k (stream q3_obs lines')).
Proof.
  intros Hp.
  assert (∀ {K} (obs : result json → list K),
            stream obs lines ≡ₚ stream obs lines') as Hs.
  { intros K obs. unfold stream. by rewrite Hp. }
  split_and!.
  - intros st st' ->%q1_aggregate_stream ->%q1_aggregate_stream d u.
    rewrite !q1_apply_date_counts, !q1_apply_nested, !count_of_update.
    simpl. split.
    + apply occurrences_Permutation. by rewrite (Hs _ (q1_obs f)).
    + apply occurrences_Permutation. by rewrite (Hs _ (q1_obs f)).
  - intros r r' Hr Hr'. unfold q2_memory in *.
    destruct (q2_aggregate g lines) as [c|] eqn:E; [|done].
    destruct (q2_aggregate g lines') as [c'|] eqn:E'; [|done].
    simpl in *. simplify_eq.
    apply q2_aggregate_stream in E as ->. apply q2_aggregate_stream in E' as ->.
    split.
    + apply most_common_counts_Permutation, tally_Permutation, Hs.
    + intros k. apply occurrences_Permutation, Hs.
  - intros r r' Hr Hr'. unfold q3_memory in *.
    destruct (q3_aggregate lines) as [c|] eqn:E; [|done].
    destruct (q3_aggregate lines') as [c'|] eqn:E'; [|done].
    simpl in *. simplify_eq.
    apply q3_aggregate_stream in E as ->. apply q3_aggregate_stream in E' as ->.
    split.
    + apply most_common_counts_Permutation, tally_Permutation, Hs.
    + intros k. apply occurrences_Permutation, Hs.
Qed.

Lemma counts_ignore_line_order_witness :
  [(KStr "K", 1); (KStr "A", 1)].*2 = [(KStr "A", 1); (KStr "K", 1)].*2
  ∧ [("🙏", 3); ("😊", 1)].*2 = [("🙏", 3); ("😊", 1)].*2
  ∧ count_of (Date 2021 2 2) [(Date 2021 2 2, 1); (Date 2021 2 1, 1)]
    = count_of (Date 2021 2 2) [(Date 2021 2 1, 1); (Date 2021 2 2, 1)].
Proof.
  assert (∀ x y : result json, [x; y] ≡ₚ [y; x]) as Hswap.
  { intros x y. apply perm_swap. }
  split_and!.
  - destruct (counts_ignore_line_order sample_fromisoformat sample_findall
                K_then_A [tweet_mentioning ["A"]; tweet_mentioning ["K"]]
                (Hswap _ _)) as (_ & _ & H3).
    by apply H3.
  - destruct (counts_ignore_line_order sample_fromisoformat sample_findall
                two_texts [tweet_saying "🙏"; tweet_saying "🙏🙏😊"]
                (Hswap _ _)) as (_ & H2 & _).
    by apply H2.
  - destruct (counts_ignore_line_order sample_fromisoformat sample_findall
                two_days_tied
                [tweet_by "2021-02-01T10:00:00Z" "a";
                 tweet_by "2021-02-02T10:00:00Z" "b"]
                (Hswap _ _)) as (H1 & _ & _).
    apply (H1 (Q1 [(Date 2021 2 2, 1); (Date 2021 2 1, 1)]
                  [(Date 2021 2 2, [(KStr "b", 1)]);
                   (Date 2021 2 1, [(KStr "a", 1)])])
              (Q1 [(Date 2021 2 1, 1); (Date 2021 2 2, 1)]
                  [(Date 2021 2 1, [(KStr "a", 1)]);
                   (Date 2021 2 2, [(KStr "b", 1)])]));
      [reflexivity..|exact (KStr "a")].
Defined.

Lemma stream_app {L K} (obs : L → list K) l1 l2 :
  stream obs (l1 ++ l2) = stream obs l1 ++ stream obs l2.
Proof. unfold stream. apply bind_app. Qed.

(** X8.  The counts of a file are the sums of the counts of its parts:
    for a file cut in two, the count of every key in the table of the
    whole is the sum of its counts in the tables of the two parts. *)
Theorem counts_add_over_parts f g lines1 lines2 :
  (∀ st1 st2 st, q1_aggregate f lines1 = Ok st1 →
     q1_aggregate f lines2 = Ok st2 →
     q1_aggregate f (lines1 ++ lines2) = Ok st →
     ∀ d u, count_of d (date_counts st)
            = count_of d (date_counts st1) + count_of d (date_counts st2)
            ∧ count_of u (nested_get d (date_user_counts st))
              = count_of u (nested_get d (date_user_counts st1))
                + count_of u (nested_get d (date_user_counts st2)))
  ∧ (∀ c1 c2 c, q2_aggregate g lines1 = Ok c1 → q2_aggregate g lines2 = Ok c2 →
       q2_aggregate g (lines1 ++ lines2) = Ok c →
       ∀ k, count_of k c = count_of k c1 + count_of k c2)
  ∧ (∀ c1 c2 c, q3_aggregate lines1 = Ok c1 → q3_aggregate lines2 = Ok c2 →
       q3_aggregate (lines1 ++ lines2) = Ok c →
       ∀ k, count_of k c = count_of k c1 + count_of k c2).
Proof.
  split_and!.
  - intros st1 st2 st ->%q1_aggregate_stream ->%q1_aggregate_stream
      ->%q1_aggregate_stream d u.
    rewrite !q1_apply_date_counts, !q1_apply_nested, !count_of_update.
    rewrite stream_app, fmap_app, filter_app, fmap_app, !occurrences_app.
    simpl. lia.
  - intros c1 c2 c ->%q2_aggregate_stream ->%q2_aggregate_stream
      ->%q2_aggregate_stream k.
    rewrite !count_of_update, stream_app, occurrences_app. simpl. lia.
  - intros c1 c2 c ->%q3_aggregate_stream ->%q3_aggregate_stream
      ->%q3_aggregate_stream k.
    rewrite !count_of_update, stream_app, occurrences_app. simpl. lia.
Qed.

Lemma counts_add_over_parts_witness :
  count_of (KStr "A") [(KStr "K", 2); (KStr "A", 3)]
  = count_of (KStr "A") [(KStr "K", 1); (KStr "A", 1)]
    + count_of (KStr "A") [(KStr "K", 1); (KStr "A", 2)]
  ∧ count_of "🙏" [("🙏", 3); ("😊", 1)]
    = count_of "🙏" [("🙏", 2); ("😊", 1)] + count_of "🙏" [("🙏", 1)]
  ∧ count_of (Date 2021 2 1) [(Date 2021 2 1, 2); (Date 2021 2 2, 1)]
    = count_of (Date 2021 2 1) [(Date 2021 2 1, 2)]
      + count_of (Date 2021 2 1) [(Date 2021 2 2, 1)].
Proof.
  split_and!.
  - destruct (counts_add_over_parts sample_fromisoformat sample_findall
                K_then_A [K_and_two_A]) as (_ & _ & H3).
    by apply H3.
  - destruct (counts_add_over_parts sample_fromisoformat sample_findall
                [tweet_saying "🙏🙏😊"] [tweet_saying "🙏"]) as (_ & H2 & _).
    by apply H2.
  - destruct (counts_add_over_parts sample_fromisoformat sample_findall
                (take 2 two_days) (drop 2 two_days)) as (H1 & _ & _).
    apply (H1 (Q1 [(Date 2021 2 1, 2)] [(Date 2021 2 1, [(KStr "a", 2)])])
              (Q1 [(Date 2021 2 2, 1)] [(Date 2021 2 2, [(KStr "b", 1)])])
              (Q1 [(Date 2021 2 1, 2); (Date 2021 2 2, 1)]
                  [(Date 2021 2 1, [(KStr "a", 2)]);
                   (Date 2021 2 2, [(KStr "b", 1)])]));
      [reflexivity..|exact (KStr "a")].
Defined.

(** ** The date string *)

Lemma replace_Z_app s1 s2 :
  replace_Z (s1 +:+ s2) = replace_Z s1 +:+ replace_Z s2.
Proof.
  induction s1 as [|a s1 IH]; [done|]. simpl.
  destruct (Ascii.eqb a "Z"); rewrite IH; [|done].
  repeat (simpl; f_equal).
Qed.

Lemma replace_Z_no_Z s : "Z"%char ∉ chars (replace_Z s).
Proof.
  unfold chars. induction s as [|a s IH]; simpl; [apply not_elem_of_nil|].
  destruct (Ascii.eqb_spec a "Z") as [->|Hne]; simpl.
  - rewrite !not_elem_of_cons. split_and!; done.
  - rewrite not_elem_of_cons. split; [congruence|done].
Qed.

Lemma replace_Z_id s : "Z"%char ∉ chars s → replace_Z s = s.
Proof.
  unfold chars. induction s as [|a s IH]; simpl; [done|].
  rewrite not_elem_of_cons. intros [Hne Hs].
  destruct (Ascii.eqb_spec a "Z") as [->|_]; [done|]. by rewrite IH.
Qed.

(** X9.  q1_memory reads a date that ends in [Z] as it reads the same
    date ending in [+00:00]; what it hands to fromisoformat holds no [Z],
    and a date string without [Z] is handed over as it is. *)
Theorem date_spellings_agree f :
  (∀ s rest,
     q1_fields f (Ok (JObj (("date", JStr (s +:+ "Z")) :: rest)))
     = q1_fields f (Ok (JObj (("date", JStr (s +:+ "+00:00")) :: rest))))
  ∧ (∀ s, "Z"%char ∉ chars (replace_Z s))
  ∧ (∀ s, "Z"%char ∉ chars s → replace_Z s = s).
Proof.
  split_and!.
  - intros s rest. unfold q1_fields. simpl. rewrite !replace_Z_app. simpl.
    assert (∀ t, t ≠ "" → String.eqb (s +:+ t) "" = false) as Hne.
    { intros t Ht. apply String.eqb_neq. by destruct s, t. }
    by rewrite !Hne.
  - apply replace_Z_no_Z.
  - apply replace_Z_id.
Qed.

Lemma date_spellings_agree_witness :
  replace_Z "2021-02-01T10:00:00+00:00" = "2021-02-01T10:00:00+00:00".
Proof.
  destruct (date_spellings_agree sample_fromisoformat) as (_ & _ & Hid).
  apply Hid. unfold chars. vm_compute.
  intros Hin%list_elem_of_In. simpl in Hin.
  repeat (destruct Hin as [Hin|Hin]; [discriminate Hin|]). done.
Defined.

(** ** Mentions *)

Lemma q3_mentions_app users1 users2 c c1 :
  q3_mentions users1 c = Done c1 →
  q3_mentions (users1 ++ users2) c = q3_mentions users2 c1.
Proof.
  revert c. induction users1 as [|user users1 IH]; intros c; simpl.
  - by intros [= ->].
  - destruct user as [| | | | |fields]; try apply IH.
    destruct (dict_get "username" fields) as [username|]; [|apply IH].
    destruct (truthy username); [|apply IH].
    destruct (hashable username) as [k|]; [apply IH|done].
Qed.

(** X10.  When a mention of a tweet has a username that cannot be a key
    (a non-empty list or object), q3_memory keeps the counts of the
    mentions before it, drops those after it, and goes on with the next
    line. *)
Theorem unhashable_mention_cuts_the_tweet
    tweet users1 bad username users2 c c1 rest :
  dict_get "mentionedUsers" tweet
    = Some (JArr (users1 ++ JObj bad :: users2)) →
  dict_get "username" bad = Some username →
  truthy username = true → hashable username = None →
  q3_mentions users1 c = Done c1 →
  q3_body (Ok (JObj tweet)) c = Raised c1 TypeError
  ∧ for_lines q3_handlers q3_body (Ok (JObj tweet) :: rest) c
    = for_lines q3_handlers q3_body rest c1.
Proof.
  intros Htweet Hbad Htruthy Hhash Hbefore.
  assert (q3_body (Ok (JObj tweet)) c = Raised c1 TypeError) as Hbody.
  { unfold q3_body. simpl. rewrite Htweet. simpl.
    destruct (users1 ++ JObj bad :: users2) eqn:E.
    { by destruct users1. }
    rewrite <-E, (q3_mentions_app _ _ _ _ Hbefore). simpl.
    by rewrite Hbad, Htruthy, Hhash. }
  split; [done|]. cbn [for_lines]. by rewrite Hbody.
Qed.

Lemma unhashable_mention_cuts_the_tweet_witness :
  q3_memory
    [Ok (JObj [("mentionedUsers",
                  JArr ([JObj [("username", JStr "a")]]
                        ++ JObj [("username", JArr [JInt 1])]
                           :: [JObj [("username", JStr "b")]]))]);
     tweet_mentioning ["a"]]
  = Ok [(KStr "a", 2)].
Proof.
  unfold q3_memory, q3_aggregate.
  destruct (unhashable_mention_cuts_the_tweet
              [("mentionedUsers",
                JArr ([JObj [("username", JStr "a")]]
                      ++ JObj [("username", JArr [JInt 1])]
                         :: [JObj [("username", JStr "b")]]))]
              [JObj [("username", JStr "a")]]
              [("username", JArr [JInt 1])] (JArr [JInt 1])
              [JObj [("username", JStr "b")]] [] [(KStr "a", 1)]
              [tweet_mentioning ["a"]]) as [_ ->]; reflexivity.
Defined.

Lemma q3_mentions_none users c :
  forallb no_mention users = true → q3_mentions users c = Done c.
Proof.
  induction users as [|user users IH]; [done|]. simpl.
  intros [Huser Hrest]%andb_true_iff.
  destruct user as [| | | | |fields]; auto.
  simpl in Huser. destruct (dict_get "username" fields) as [username|]; auto.
  apply negb_true_iff in Huser. rewrite Huser. auto.
Qed.

(** X11.  A tweet with no mentionedUsers, with null or an empty list
    there, or with only mentions that are no objects or have no username
    or an empty one, leaves the counts of q3_memory as they are. *)
Theorem tweets_without_mentions_change_nothing tweet c :
  without_mentions tweet = true →
  q3_body (Ok (JObj tweet)) c = Done c ∧ q3_obs (Ok (JObj tweet)) = [].
Proof.
  unfold without_mentions, q3_body, q3_obs. simpl.
  destruct (dict_get "mentionedUsers" tweet) as [[| | | |users|]|];
    simpl; try done.
  intros Hnone. destruct users as [|user users]; [done|].
  rewrite q3_mentions_none by done. split; [done|].
  revert Hnone. generalize (user :: users). clear.
  induction l as [|user users IH]; [done|]. simpl.
  intros [Huser Hrest]%andb_true_iff.
  destruct user as [| | | | |fields]; auto.
  simpl in Huser. destruct (dict_get "username" fields) as [username|]; auto.
  apply negb_true_iff in Huser. rewrite Huser. auto.
Qed.

Lemma tweets_without_mentions_change_nothing_witness :
  q3_body
    (Ok (JObj [("mentionedUsers",
                  JArr [JObj [("id", JInt 7)];
                        JObj [("username", JStr "")]; JStr "x"])]))
    [(KStr "a", 1)]
  = Done [(KStr "a", 1)]
  ∧ q3_body (Ok (JObj [("content", JStr "🙏")])) [(KStr "a", 1)]
    = Done [(KStr "a", 1)].
Proof.
  split.
  - by apply tweets_without_mentions_change_nothing.
  - by apply tweets_without_mentions_change_nothing.
Defined.

(** ** The two implementations of a statistic *)

Lemma str_field_default k fields o :
  str_field k fields = Some o →
  match o with
  | Some s => default (JStr "") (dict_get k fields) = JStr s
  | None => truthy (default (JStr "") (dict_get k fields)) = false
  end.
Proof.
  unfold str_field.
  destruct (dict_get k fields) as [[| | | | |]|]; simpl; try done.
  all: by intros [= <-].
Qed.

Lemma q2_body_row g fields content renderedContent c :
  q2_row fields = Some (content, renderedContent) → content ≠ Some "" →
  q2_body g (Ok (JObj fields)) c
  = Done match content, renderedContent with
         | Some s, _ | None, Some s =>
             if String.eqb s "" then c else update (g s) c
         | None, None => c
         end.
Proof.
  unfold q2_row.
  destruct (str_field "content" fields) as [c0|] eqn:Ec; [|done].
  destruct (str_field "renderedContent" fields) as [rc0|] eqn:Erc; [|done].
  intros [= -> ->] Hne.
  apply str_field_default in Ec, Erc.
  unfold q2_body, q2_emojis. simpl.
  destruct content as [s|].
  - rewrite Ec. simpl.
    destruct (String.eqb_spec s "") as [->|Hs]; [done|]. simpl.
    by destruct (String.eqb_spec s "").
  - rewrite Ec. simpl. destruct renderedContent as [s'|].
    + rewrite Erc. simpl. by destruct (String.eqb s' "").
    + by rewrite Erc.
Qed.

Lemma q2_aggregate_rows g tweets rows c :
  Forall2 (λ fields row, q2_row fields = Some row) tweets rows →
  Forall (λ row : option string * option string, row.1 ≠ Some "") rows →
  for_lines q2_handlers (q2_body g)
    ((λ fields, Ok (JObj fields)) <$> tweets) c
  = Ok (foldl (λ c content,
                 if String.eqb content "" then c else update (g content) c)
          c (omap (λ row : option string * option string,
                     match row with
                     | (Some content, _) => Some content
                     | (None, Some renderedContent) => Some renderedContent
                     | (None, None) => None
                     end) rows)).
Proof.
  intros Hrows. revert c.
  induction Hrows as [|fields [content rc] tweets rows Hrow _ IH];
    intros c Hne; [done|].
  apply Forall_cons in Hne as [Hne Hrest]. rewrite fmap_cons.
  cbn [for_lines]. rewrite (q2_body_row g fields content rc c Hrow Hne).
  rewrite IH by done. destruct content as [s|], rc as [s'|]; done.
Qed.

(** X12.  On a file of tweets whose content and renderedContent are
    strings, null or missing, each of the two a string in some tweet, and
    whose content is never the empty string, q2_memory returns what
    q2_time returns on the rows with the same strings. *)
Theorem q2_memory_agrees_with_q2_time g tweets rows :
  q2_rows tweets = Some rows →
  Forall (λ row : option string * option string, row.1 ≠ Some "") rows →
  q2_memory g ((λ fields, Ok (JObj fields)) <$> tweets)
  = Ok (q2_time g rows).
Proof.
  unfold q2_rows.
  destruct (has_text "content" tweets && has_text "renderedContent" tweets);
    [|done].
  intros Hrows%mapM_Some_1 Hne. unfold q2_memory, q2_aggregate, q2_time.
  by rewrite (q2_aggregate_rows g tweets rows [] Hrows Hne).
Qed.

Lemma q2_memory_agrees_with_q2_time_witness :
  q2_memory sample_findall
    [Ok (JObj [("content", JStr "🙏🙏😊")]);
     Ok (JObj [("content", JNull); ("renderedContent", JStr "🙏")]);
     Ok (JObj [])]
  = Ok (q2_time sample_findall
          [(Some "🙏🙏😊", None); (None, Some "🙏"); (None, None)]).
Proof.
  apply (q2_memory_agrees_with_q2_time sample_findall
           [[("content", JStr "🙏🙏😊")];
            [("content", JNull); ("renderedContent", JStr "🙏")];
            []]).
  - reflexivity.
  - repeat constructor; done.
Defined.

(** X13.  On a tweet whose content is the empty string the two differ:
    q2_memory goes on to renderedContent and counts its emojis, q2_time
    takes the empty content and counts nothing. *)
Theorem empty_content_divides_q2 g s tweets rows :
  s ≠ "" →
  mapM q2_row tweets = Some rows →
  Forall (λ row : option string * option string, row.1 ≠ Some "") rows →
  q2_memory g
    (((λ fields, Ok (JObj fields)) <$> tweets)
     ++ [Ok (JObj [("content", JStr ""); ("renderedContent", JStr s)])])
  = Ok (q2_time g (rows ++ [(None, Some s)]))
  ∧ q2_time g (rows ++ [(Some "", Some s)]) = q2_time g rows.
Proof.
  intros Hs Hrows Hne. split.
  - unfold q2_memory, q2_aggregate. rewrite for_lines_app.
    apply mapM_Some_1 in Hrows.
    rewrite (q2_aggregate_rows g tweets rows [] Hrows Hne).
    unfold q2_time. rewrite omap_app, foldl_app. cbn [bind for_lines].
    unfold q2_body, q2_emojis. simpl.
    destruct (String.eqb_spec s ""); [done|]. done.
  - unfold q2_time. by rewrite omap_app, foldl_app.
Qed.

Lemma empty_content_divides_q2_witness :
  q2_memory sample_findall
    (((λ fields, Ok (JObj fields)) <$> [[("content", JStr "🙏🙏😊")]])
     ++ [Ok (JObj [("content", JStr ""); ("renderedContent", JStr "🙏")])])
  = Ok (q2_time sample_findall [(Some "🙏🙏😊", None); (None, Some "🙏")])
  ∧ q2_time sample_findall [(Some "🙏🙏😊", None); (Some "", Some "🙏")]
    = q2_time sample_findall [(Some "🙏🙏😊", None)].
Proof.
  apply (empty_content_divides_q2 sample_findall "🙏"
           [[("content", JStr "🙏🙏😊")]] [(Some "🙏🙏😊", None)]).
  - done.
  - reflexivity.
  - repeat constructor; done.
Defined.

Lemma incr_fmap {K K'} `{EqDecision K, EqDecision K'} (h : K → K')
    `{!Inj (=) (=) h} k (c : Counter K) :
  incr (h k) (prod_map h id <$> c) = prod_map h id <$> incr k c.
Proof.
  induction c as [|[k0 n] c IH]; [done|]. rewrite fmap_cons. simpl.
  destruct (decide (k0 = k)) as [->|Hne].
  - by rewrite decide_True.
  - rewrite decide_False by (by intros ?%(inj h)).
    rewrite fmap_cons. simpl. by rewrite <-IH.
Qed.

Lemma update_fmap {K K'} `{EqDecision K, EqDecision K'} (h : K → K')
    `{!Inj (=) (=) h} (obs : list K) (c : Counter K) :
  update (h <$> obs) (prod_map h id <$> c) = prod_map h id <$> update obs c.
Proof.
  revert c. induction obs as [|k obs IH]; intros c; [done|].
  rewrite fmap_cons, !update_cons, incr_fmap by done. apply IH.
Qed.

Lemma sorted_desc_fmap {A B} (lt : A → A → bool) (lt' : B → B → bool)
    (h : A → B) l :
  (∀ x y, lt' (h x) (h y) = lt x y) →
  sorted_desc lt' (h <$> l) = h <$> sorted_desc lt l.
Proof.
  intros Hlt. induction l as [|a l IH]; [done|].
  rewrite fmap_cons. simpl. rewrite IH.
  generalize (sorted_desc lt l). clear IH. intros l'.
  induction l' as [|b l' IH]; [done|]. rewrite fmap_cons. simpl.
  rewrite Hlt. destruct (lt a b); [|done]. rewrite fmap_cons. by rewrite IH.
Qed.

Lemma most_common_fmap {K K'} `{EqDecision K, EqDecision K'} (h : K → K')
    `{!Inj (=) (=) h} m (obs : list K) :
  most_common m (update (h <$> obs) [])
  = prod_map h id <$> most_common m (update obs []).
Proof.
  unfold most_common.
  rewrite (update_fmap h obs []), fmap_take. f_equal.
  by apply sorted_desc_fmap.
Qed.

Lemma q3_usernames_row users us :
  Forall2 (λ user o, mention_username user = Some o) users us →
  q3_usernames users
  = KStr <$> omap (λ username : option string,
                     match username with
                     | Some u => if String.eqb u "" then None else Some u
                     | None => None
                     end) us.
Proof.
  induction 1 as [|user o users us Huser _ IH]; [done|]. simpl.
  destruct user as [| | | | |fields]; try done. simpl in Huser.
  unfold str_field in Huser.
  destruct (dict_get "username" fields) as [[| | |u| |]|]; simpl;
    try done; injection Huser as <-; simpl; try done.
  destruct (String.eqb u ""); simpl; [done|]. by rewrite IH.
Qed.

Lemma q3_obs_row fields row :
  q3_row fields = Some row →
  q3_obs (Ok (JObj fields))
  = KStr <$> omap (λ username : option string,
                     match username with
                     | Some u => if String.eqb u "" then None else Some u
                     | None => None
                     end) (default [] row).
Proof.
  unfold q3_row, q3_obs. simpl.
  destruct (dict_get "mentionedUsers" fields) as [[| | | |users|]|];
    simpl; try done; try (by intros [= <-]).
  destruct (mapM mention_username users) as [us|] eqn:E; [|done].
  simpl. intros [= <-]. simpl. apply mapM_Some_1 in E.
  destruct users as [|user users]; [by inv E|].
  by apply q3_usernames_row.
Qed.

Lemma q3_stream_rows tweets rows :
  Forall2 (λ fields row, q3_row fields = Some row) tweets rows →
  stream q3_obs ((λ fields, Ok (JObj fields)) <$> tweets)
  = KStr <$> omap (λ username : option string,
                     match username with
                     | Some u => if String.eqb u "" then None else Some u
                     | None => None
                     end) (rows ≫= default []).
Proof.
  unfold stream. induction 1 as [|fields row tweets rows Hrow _ IH]; [done|].
  rewrite fmap_cons, !bind_cons, omap_app, fmap_app, IH.
  by rewrite (q3_obs_row fields row Hrow).
Qed.

(** X14.  On a file of tweets whose mentionedUsers is missing, null or a
    list of objects with a string, null or no username, some mention of
    the file having a string there, q3_memory returns a list with the
    same counts, place by place, as q3_time on the rows with the same
    usernames, and every pair of q3_time is a user with the number of
    mentions q3_memory counts for that user. *)
Theorem q3_memory_agrees_with_q3_time tweets rows :
  q3_rows tweets = Some rows →
  ∃ r, q3_memory ((λ fields, Ok (JObj fields)) <$> tweets) = Ok r
       ∧ r.*2 = (q3_time rows).*2
       ∧ ∀ u n, (u, n) ∈ q3_time rows →
                n = occurrences (KStr u)
                      (stream q3_obs
                         ((λ fields, Ok (JObj fields)) <$> tweets)).
Proof.
  unfold q3_rows. destruct (has_mention_name tweets); [|done].
  intros Hrows%mapM_Some_1.
  destruct (for_lines_ok q3_handlers q3_body
              ((λ fields, Ok (JObj fields)) <$> tweets) []) as [c Hc].
  { intros line s (fields & -> & _)%list_elem_of_fmap.
    by apply q3_body_object. }
  exists (most_common 10 c). unfold q3_memory, q3_aggregate. rewrite Hc.
  split; [done|]. apply q3_aggregate_stream in Hc as ->.
  rewrite (q3_stream_rows tweets rows Hrows). unfold q3_time.
  set (us := omap _ (rows ≫= default [])).
  assert (Inj (=) (=) KStr) as Hinj by (by intros ?? [= ->]).
  rewrite (most_common_fmap KStr). split.
  - rewrite <-list_fmap_compose. by apply list_fmap_ext.
  - intros u n Hin.
    destruct (most_common_exact 10 (KStr <$> us)) as [_ Hex].
    apply Hex. rewrite (most_common_fmap KStr).
    by apply (list_elem_of_fmap_2' (prod_map KStr id) _ (u, n)).
Qed.

Lemma q3_memory_agrees_with_q3_time_witness :
  ∃ r, q3_memory
         ((λ fields, Ok (JObj fields))
          <$> [[("mentionedUsers",
                 JArr [JObj [("username", JStr "K")];
                       JObj [("username", JNull)];
                       JObj [("username", JStr "A")]])];
               [("mentionedUsers", JNull)];
               [("mentionedUsers", JArr [JObj [("username", JStr "K")]])]])
       = Ok r
       ∧ r.*2 = (q3_time [Some [Some "K"; None; Some "A"]; None;
                          Some [Some "K"]]).*2.
Proof.
  destruct (q3_memory_agrees_with_q3_time
              [[("mentionedUsers",
                 JArr [JObj [("username", JStr "K")];
                       JObj [("username", JNull)];
                       JObj [("username", JStr "A")]])];
               [("mentionedUsers", JNull)];
               [("mentionedUsers", JArr [JObj [("username", JStr "K")]])]]
              [Some [Some "K"; None; Some "A"]; None; Some [Some "K"]])
    as (r & Hr & Hcounts & _); [reflexivity|].
  exists r. split; [exact Hr|exact Hcounts].
Defined.

Lemma date_lt_trans a b c :
  date_lt a b = true → date_lt b c = true → date_lt a c = true.
Proof.
  destruct a as [y1 m1 d1], b as [y2 m2 d2], c as [y3 m3 d3].
  unfold date_lt. simpl.
  rewrite !orb_true_iff, !andb_true_iff, !orb_true_iff, !andb_true_iff,
    !Nat.ltb_lt, !Nat.eqb_eq.
  lia.
Qed.

Lemma date_lt_irrefl a : date_lt a a = false.
Proof.
  destruct a as [y m d]. unfold date_lt. simpl.
  by rewrite !Nat.ltb_irrefl, !Nat.eqb_refl.
Qed.

Lemma date_lt_total a b : a ≠ b → date_lt a b = false → date_lt b a = true.
Proof.
  destruct a as [y1 m1 d1], b as [y2 m2 d2]. intros Hne.
  assert (y1 ≠ y2 ∨ m1 ≠ m2 ∨ d1 ≠ d2) as Hne'.
  { destruct (decide (y1 = y2)) as [->|]; [|by left].
    destruct (decide (m1 = m2)) as [->|]; [|by right; left].
    destruct (decide (d1 = d2)) as [->|]; [done|by right; right]. }
  unfold date_lt. simpl.
  rewrite !orb_false_iff, !andb_false_iff, !orb_false_iff, !andb_false_iff,
    !orb_true_iff, !andb_true_iff, !orb_true_iff, !andb_true_iff,
    !Nat.ltb_lt, !Nat.ltb_ge, !Nat.eqb_eq, !Nat.eqb_neq.
  lia.
Qed.

Lemma sorted_by_date {B} (l : list (date * B)) :
  NoDup l.*1 →
  StronglySorted (λ x y, date_lt y.1 x.1 = true)
                 (sorted_desc (λ x y, date_lt x.1 y.1) l).
Proof.
  induction l as [|a l IH]; [constructor|].
  rewrite fmap_cons, NoDup_cons. intros [Ha Hl]. simpl.
  specialize (IH Hl).
  assert (a.1 ∉ (sorted_desc (λ x y, date_lt x.1 y.1) l).*1) as Ha'
    by (by rewrite sorted_desc_perm).
  revert IH Ha'. generalize (sorted_desc (λ x y, date_lt x.1 y.1) l).
  clear Ha Hl. intros s. induction 1 as [|y s Hs IH Hy]; intros Ha.
  - repeat constructor.
  - rewrite fmap_cons, not_elem_of_cons in Ha. destruct Ha as [Hay Ha].
    simpl. destruct (date_lt a.1 y.1) eqn:E.
    + constructor; [by apply IH|].
      apply Forall_forall. intros z [->|Hz]%elem_of_insert_desc; [done|].
      by apply (proj1 (Forall_forall _ _) Hy).
    + assert (date_lt y.1 a.1 = true) as Hya by (by apply date_lt_total).
      constructor; [by constructor|].
      constructor; [done|]. apply Forall_forall. intros z Hz.
      apply (date_lt_trans _ y.1); [|done].
      by apply (proj1 (Forall_forall _ _) Hy).
Qed.

Lemma NoDup_omap_key {A B K} (key : A → K) (key' : B → K)
    (f : A → option B) l :
  (∀ x y, f x = Some y → key' y = key x) →
  NoDup (key <$> l) → NoDup (key' <$> omap f l).
Proof.
  intros Hf. induction l as [|x l IH]; [constructor|].
  rewrite fmap_cons, NoDup_cons. intros [Hx Hl]. simpl.
  destruct (f x) as [y|] eqn:E; [|by apply IH].
  rewrite fmap_cons. constructor; [|by apply IH].
  intros (z & Hz & (x' & Hx' & Hfx')%list_elem_of_omap)%list_elem_of_fmap.
  apply Hx. rewrite <-(Hf x y E), Hz, (Hf x' z Hfx').
  by apply list_elem_of_fmap_2.
Qed.

Lemma length_omap_le {A B} (f : A → option B) l :
  length (omap f l) ≤ length l.
Proof.
  induction l as [|x l IH]; simpl; [done|].
  unfold omap in IH. destruct (f x); simpl; lia.
Qed.

(** X15.  Whatever the rows, q1_time returns at most 10 pairs, their
    dates strictly descending, so that no date comes twice, and each of
    them the date of a row. *)
Theorem q1_time_result_shape (parsed : list (option date * option string)) :
  length (q1_time parsed) ≤ 10
  ∧ StronglySorted (λ x y, date_lt y.1 x.1 = true) (q1_time parsed)
  ∧ NoDup (q1_time parsed).*1
  ∧ ∀ d u, (d, u) ∈ q1_time parsed → Some d ∈ parsed.*1.
Proof.
  unfold q1_time.
  set (date_counts := most_common 10 (update parsed.*1 [])).
  set (rank_1 := omap _ date_counts).
  assert (NoDup date_counts.*1) as Hnd.
  { unfold date_counts, most_common. rewrite fmap_take.
    eapply sublist_NoDup; [|apply sublist_take].
    apply sorted_keys_NoDup, update_NoDup, NoDup_nil_2. }
  assert (∀ d u, (d, u) ∈ rank_1 → ∃ n, (Some d, n) ∈ date_counts) as Hin.
  { intros d u ([[d'|] n] & Hdc & Hf)%list_elem_of_omap; simpl in Hf; [|done].
    destruct (most_common 1 _) as [|[u' ?] ?]; [done|].
    injection Hf as -> ->. by exists n. }
  assert (NoDup rank_1.*1) as Hnd1.
  { apply (NoDup_fmap_1 Some). rewrite <-list_fmap_compose.
    apply (NoDup_omap_key fst); [|done].
    intros [[d|] n] [d' u] Hf; simpl in Hf; [|done].
    destruct (most_common 1 _) as [|[u' ?] ?]; [done|].
    by injection Hf as -> ->. }
  split; [|split; [|split]].
  - rewrite length_sorted_desc. unfold rank_1.
    etrans; [apply length_omap_le|].
    unfold date_counts. rewrite length_most_common. lia.
  - by apply sorted_by_date.
  - by rewrite sorted_desc_perm.
  - intros d u Hdu%elem_of_sorted_desc.
    destruct (Hin d u Hdu) as [n Hn].
    apply elem_of_most_common, elem_of_tally in Hn. tauto.
Qed.

(** X16.  When the rows have at most 10 distinct dates, NULL counted as
    one, q1_time leaves no date out: every date of a row is in the
    result. *)
Theorem q1_time_keeps_few_dates (parsed : list (option date * option string))
    d :
  length (remove_dups parsed.*1) ≤ 10 →
  Some d ∈ parsed.*1 →
  d ∈ (q1_time parsed).*1.
Proof.
  intros Hlen Hd. unfold q1_time.
  rewrite sorted_desc_perm.
  assert (∃ n, (Some d, n) ∈ most_common 10 (update parsed.*1 []))
    as [n Hn].
  { exists (occurrences (Some d) parsed.*1).
    unfold most_common. rewrite take_ge.
    - apply elem_of_sorted_desc, elem_of_tally. done.
    - rewrite length_sorted_desc, <-(length_fmap fst), tally_keys,
        length_distinct. done. }
  destruct (most_common 1
              (update (filter (λ p, p.1 = Some d) parsed).*2 []))
    as [|[u m] rest] eqn:E.
  { apply most_common_nil in E.
    apply list_elem_of_fmap in Hd as ([o u] & Ho & Hin). simpl in Ho.
    subst o.
    assert (u ∈ (filter (λ p, p.1 = Some d) parsed).*2) as Hu.
    { apply (list_elem_of_fmap_2' snd _ (Some d, u)); [|done].
      by apply list_elem_of_filter. }
    apply elem_of_distinct in Hu. rewrite <-tally_keys, E in Hu.
    by apply elem_of_nil in Hu. }
  apply (list_elem_of_fmap_2' fst _ (d, u)); [|done].
  apply list_elem_of_omap. exists (Some d, n). split; [done|].
  simpl. by rewrite E.
Qed.

Lemma q1_time_keeps_few_dates_witness :
  Date 2021 2 1 ∈ (q1_time two_days_parsed).*1.
Proof.
  apply q1_time_keeps_few_dates.
  - vm_compute. lia.
  - vm_compute. apply list_elem_of_here.
Defined.
